(** * ESG-yahoo-scraper: a shallow embedding of [scraper.py]

    The program is a sequential fetch / transform pipeline:
    [fetch_historical_esg] issues one HTTP request per ticker, turns each
    usable JSON answer into a small table and concatenates the tables;
    [format_esg_data] renames the score columns, stamps the processing date
    and reorders the columns.

    The embedding keeps the shape of the Python code.  The network, the random
    source and the clock are explicit inputs; console output, sleeps and
    requests are recorded in an event log, so that "which handler ran" and
    "how long did it wait" are ordinary facts about the final state. *)

From Stdlib Require Import List String Ascii Bool ZArith QArith Lia.
Import ListNotations.
Local Open Scope string_scope.
Local Open Scope list_scope.
Local Open Scope Z_scope.

(** ** Python values *)

(** What [response.json()] returns: the Python value of a JSON document.
    Integer literals become [JInt]; a literal with a fraction or an exponent
    becomes a float, kept as [mantissa * 10 ^ exponent].  A [dict] is an
    association list searched from the left. *)
#[warnings="-register-all"]
Inductive json : Type :=
| JNull
| JBool (b : bool)
| JInt (n : Z)
| JFloat (mantissa exponent : Z)
| JStr (s : string)
| JArr (items : list json)
| JObj (fields : list (string * json)).

(** The exception classes the program can meet.  [KeyError] carries the
    labels that were not found, as its message does. *)
Inductive exn : Type :=
| RequestException
| JSONDecodeError
| TypeError
| ValueError
| AttributeError
| IndexError
| KeyError (missing : list string)
| OutOfBoundsDatetime.

(** A computation that returns a value or raises. *)
Inductive result (A : Type) : Type :=
| Ok (a : A)
| Raise (e : exn).
Arguments Ok {A} a.
Arguments Raise {A} e.

Definition bind {A B} (r : result A) (k : A -> result B) : result B :=
  match r with
  | Ok a => k a
  | Raise e => Raise e
  end.

Notation "x <- r ;; k" := (bind r (fun x => k))
  (at level 61, r at next level, right associativity).

(** Only [requests.exceptions.RequestException] is caught by the first outer
    handler, and only [json.JSONDecodeError] by the inner one. *)
Definition is_RequestException (e : exn) : bool :=
  match e with RequestException => true | _ => false end.

Definition is_JSONDecodeError (e : exn) : bool :=
  match e with JSONDecodeError => true | _ => false end.

(** Lookup in a dict. *)
Fixpoint assoc {A} (k : string) (kv : list (string * A)) : option A :=
  match kv with
  | [] => None
  | (k', v) :: rest => if String.eqb k k' then Some v else assoc k rest
  end.

Definition mem (x : string) (l : list string) : bool :=
  existsb (String.eqb x) l.

(** [p in s] on two strings: [p] occurs somewhere in [s]. *)
Fixpoint str_contains (p s : string) : bool :=
  String.prefix p s ||
  match s with
  | EmptyString => false
  | String _ s' => str_contains p s'
  end.

(** [x == k] for a JSON value [x] and a string [k]. *)
Definition eq_str (k : string) (x : json) : bool :=
  match x with
  | JStr s => String.eqb k s
  | _ => false
  end.

(** [k in x]: key membership on a dict, element membership on a list,
    substring on a string, [TypeError] on anything that is not iterable. *)
Definition py_in (k : string) (x : json) : result bool :=
  match x with
  | JObj kv => Ok (match assoc k kv with Some _ => true | None => false end)
  | JArr l => Ok (existsb (eq_str k) l)
  | JStr s => Ok (str_contains k s)
  | JNull | JBool _ | JInt _ | JFloat _ _ => Raise TypeError
  end.

(** [x[k]] with a string key: only a dict can be indexed by a string. *)
Definition getitem (x : json) (k : string) : result json :=
  match x with
  | JObj kv =>
      match assoc k kv with
      | Some v => Ok v
      | None => Raise (KeyError [k])
      end
  | _ => Raise TypeError
  end.

(** [x[0]]: the first element of a list, the first character of a string.
    A dict from JSON has string keys only, so [0] is never one of them. *)
Definition getitem0 (x : json) : result json :=
  match x with
  | JArr [] => Raise IndexError
  | JArr (v :: _) => Ok v
  | JStr EmptyString => Raise IndexError
  | JStr (String c _) => Ok (JStr (String c EmptyString))
  | JObj _ => Raise (KeyError ["0"])
  | JNull | JBool _ | JInt _ | JFloat _ _ => Raise TypeError
  end.

(** ** pandas: timestamps, cells and frames *)

(** A calendar timestamp (UTC, whole seconds). *)
Record Timestamp : Type := mkTimestamp {
  year : Z; month : Z; day : Z; hour : Z; minute : Z; second : Z
}.

(** Days since 1970-01-01 to a proleptic Gregorian date. *)
Definition civil_from_days (days : Z) : Z * Z * Z :=
  let z := days + 719468 in
  let era := z / 146097 in
  let doe := z - era * 146097 in
  let yoe := (doe - doe / 1460 + doe / 36524 - doe / 146096) / 365 in
  let doy := doe - (365 * yoe + yoe / 4 - yoe / 100) in
  let mp := (5 * doy + 2) / 153 in
  let d := doy - (153 * mp + 2) / 5 + 1 in
  let m := if mp <? 10 then mp + 3 else mp - 9 in
  let y := yoe + era * 400 + (if m <=? 2 then 1 else 0) in
  (y, m, d).

Definition Timestamp_of_epoch (s : Z) : Timestamp :=
  let '(y, m, d) := civil_from_days (s / 86400) in
  let r := s mod 86400 in
  mkTimestamp y m d (r / 3600) (r mod 3600 / 60) (r mod 60).

(** A nanosecond timestamp is a signed 64-bit count, so whole seconds are
    representable between these two bounds. *)
Definition epoch_in_bounds (s : Z) : bool :=
  (-9223372036 <=? s) && (s <=? 9223372036).

Definition digit (n : Z) : ascii := ascii_of_nat (48 + Z.to_nat (n mod 10)).

Definition pad2 (n : Z) : string :=
  String (digit (n / 10)) (String (digit n) EmptyString).

Definition pad4 (n : Z) : string :=
  String (digit (n / 1000)) (String (digit (n / 100)) (pad2 n)).

(** [Timestamp.isoformat()]. *)
Definition isoformat (t : Timestamp) : string :=
  (pad4 (year t) ++ "-" ++ pad2 (month t) ++ "-" ++ pad2 (day t) ++ "T" ++
   pad2 (hour t) ++ ":" ++ pad2 (minute t) ++ ":" ++ pad2 (second t))%string.

(** One cell of a frame: a missing value, a value taken from the JSON
    document, or a converted timestamp ([NaT] when missing). *)
Inductive Cell : Type :=
| NaN
| NaT
| Val (v : json)
| Time (t : Timestamp).

(** A frame is column oriented, as pandas is: the number of rows of its
    index and the labelled columns, in order.  Labels are strings; a lookup
    takes the first column with the label. *)
Record DataFrame : Type := mkDataFrame {
  nrows : nat;
  columns : list (string * list Cell)
}.

Definition column_names (df : DataFrame) : list string := map fst (columns df).

(** [df.empty]: some axis has length zero. *)
Definition empty (df : DataFrame) : bool :=
  (nrows df =? 0)%nat || (List.length (columns df) =? 0)%nat.

(** [df[name]]. *)
Definition getcol (df : DataFrame) (name : string) : result (list Cell) :=
  match assoc name (columns df) with
  | Some d => Ok d
  | None => Raise (KeyError [name])
  end.

Fixpoint replace_col (name : string) (d : list Cell)
    (cols : list (string * list Cell)) : list (string * list Cell) :=
  match cols with
  | [] => [(name, d)]
  | (c, old) :: rest =>
      if String.eqb name c then (c, d) :: rest
      else (c, old) :: replace_col name d rest
  end.

(** [df[name] = series]: overwrite the column, or add it at the end. *)
Definition setcol (df : DataFrame) (name : string) (d : list Cell) : DataFrame :=
  mkDataFrame (nrows df) (replace_col name d (columns df)).

(** [df[name] = scalar]: the scalar is repeated down the index. *)
Definition setcol_scalar (df : DataFrame) (name : string) (v : Cell) : DataFrame :=
  setcol df name (repeat v (nrows df)).

(** [df[names]]: the listed columns in the listed order; [KeyError] with the
    labels that are not in the frame. *)
Definition select (df : DataFrame) (names : list string) : result DataFrame :=
  match filter (fun c => negb (mem c (column_names df))) names with
  | [] =>
      Ok (mkDataFrame (nrows df)
            (map (fun c => (c, match assoc c (columns df) with
                               | Some d => d
                               | None => []
                               end)) names))
  | missing => Raise (KeyError missing)
  end.

(** [df.rename(columns=mapping)]. *)
Definition rename (mapping : list (string * string)) (df : DataFrame) : DataFrame :=
  mkDataFrame (nrows df)
    (map (fun '(c, d) => (match assoc c mapping with
                          | Some c' => c'
                          | None => c
                          end, d)) (columns df)).

(** Labels in order of first appearance. *)
Fixpoint union_labels (acc l : list string) : list string :=
  match l with
  | [] => acc
  | x :: rest =>
      if mem x acc then union_labels acc rest
      else union_labels (acc ++ [x]) rest
  end.

(** [pd.concat(frames, ignore_index=True)]: the union of the labels, each
    frame filling the columns it lacks with [NaN]. *)
Definition concat (frames : list DataFrame) : DataFrame :=
  mkDataFrame
    (fold_right (fun df n => (nrows df + n)%nat) 0%nat frames)
    (map (fun c =>
            (c, flat_map (fun df => match assoc c (columns df) with
                                    | Some d => d
                                    | None => repeat NaN (nrows df)
                                    end) frames))
         (union_labels [] (flat_map column_names frames))).

(** [pd.DataFrame(columns=names)]: labelled columns and no row. *)
Definition empty_frame (names : list string) : DataFrame :=
  mkDataFrame 0 (map (fun c => (c, [])) names).

(** The rows of a frame, as [df.to_dict('records')] lists them. *)
Definition row (df : DataFrame) (i : nat) : list (string * Cell) :=
  map (fun '(c, d) => (c, nth i d NaN)) (columns df).

Definition to_records (df : DataFrame) : list (list (string * Cell)) :=
  map (row df) (seq 0 (nrows df)).

(** *** The [pd.DataFrame(data)] constructor on a JSON value *)

Definition is_dict (x : json) : bool :=
  match x with JObj _ => true | _ => false end.

Definition keys (x : json) : list string :=
  match x with JObj kv => map fst kv | _ => [] end.

(** The cell of record [r] under label [c]: [NaN] where the record has no
    such key. *)
Definition cell_of (c : string) (r : json) : Cell :=
  match r with
  | JObj kv => match assoc c kv with Some v => Val v | None => NaN end
  | _ => NaN
  end.

(** A list of dicts: one row per dict, one column per key met. *)
Definition from_records (rs : list json) : DataFrame :=
  mkDataFrame (List.length rs)
    (map (fun c => (c, map (cell_of c) rs))
         (union_labels [] (flat_map keys rs))).

Definition array_lengths (vs : list json) : list nat :=
  flat_map (fun v => match v with JArr l => [List.length l] | _ => [] end) vs.

Definition all_same (ns : list nat) : bool :=
  match ns with
  | [] => true
  | n :: rest => forallb (Nat.eqb n) rest
  end.

(** A dict of columns.  Arrays must agree on their length and give the rows
    by position; dicts give the rows by key (the index is the union of their
    keys) and cannot be mixed with arrays; a scalar is repeated down the
    index; scalars alone have no index. *)
Definition from_dict (kv : list (string * json)) : result DataFrame :=
  let names := union_labels [] (map fst kv) in
  let value c := match assoc c kv with Some v => v | None => JNull end in
  let values := map value names in
  let lengths := array_lengths values in
  let index := union_labels [] (flat_map keys values) in
  let has_dicts := existsb is_dict values in
  match names with
  | [] => Ok (mkDataFrame 0 [])
  | _ =>
      match lengths with
      | [] =>
          if has_dicts then
            Ok (mkDataFrame (List.length index)
                  (map (fun c => (c, match value c with
                                     | JObj d => map (fun k => cell_of k (JObj d)) index
                                     | v => repeat (Val v) (List.length index)
                                     end)) names))
          else Raise ValueError
      | n :: _ =>
          if negb (all_same lengths) || has_dicts then Raise ValueError
          else
            Ok (mkDataFrame n
                  (map (fun c => (c, match value c with
                                     | JArr l => map Val l
                                     | v => repeat (Val v) n
                                     end)) names))
      end
  end.

(** [pd.DataFrame(data)].  A list whose first element is a dict is a list of
    records, and every element must then be a dict.  Any other list gives
    columns labelled by integers; no statement of the program names such a
    column, so the frame keeps only its rows.  [None] gives the frame with no
    row and no column; a bare scalar is refused. *)
Definition pd_DataFrame (data : json) : result DataFrame :=
  match data with
  | JArr (JObj r :: rest) =>
      if forallb is_dict rest then Ok (from_records (JObj r :: rest))
      else Raise AttributeError
  | JArr l => Ok (mkDataFrame (List.length l) [])
  | JObj kv => from_dict kv
  | JNull => Ok (mkDataFrame 0 [])
  | JBool _ | JInt _ | JFloat _ _ | JStr _ => Raise ValueError
  end.

(** ** HTTP, randomness, console: the world of one run *)

(** What [requests.get] does for one call: it raises, or it returns a
    response with a status code and a body; [json_body] is [None] when
    [response.json()] raises [JSONDecodeError]. *)
Inductive response : Type :=
| Raised (e : exn)
| Response (status_code : Z) (json_body : option json).

(** [response.ok]: the status is neither a client nor a server error. *)
Definition ok (status_code : Z) : bool :=
  negb ((400 <=? status_code) && (status_code <? 600)).

(** The lines the function prints, by the statement that prints them.  The
    two lines that only restate the returned table (its number of rows and
    of distinct tickers) are left out. *)
Inductive message : Type :=
| Starting (n : nat)
| Processing (i n : nat) (ticker : string)
| Fetched (ticker : string)
| NoData (ticker : string)
| InvalidJSON (ticker : string)
| RateLimited (ticker : string)
| HttpError (ticker : string) (status_code : Z)
| RequestError (ticker : string) (e : exn)
| ProcessingError (ticker : string) (e : exn)
| Completed (successful failed : nat)
| NothingFetched.

Inductive event : Type :=
| Print (m : message)
| Sleep (seconds : Q)
| Get (ticker : string).

(** The variables of [fetch_historical_esg], with the number of random draws
    and of requests made so far and the log of what the run did. *)
Record state : Type := mkState {
  all_data : list DataFrame;
  successful_tickers : nat;
  failed_tickers : nat;
  draws : nat;
  requests : nat;
  log : list event
}.

Definition emit (ev : event) (st : state) : state :=
  mkState (all_data st) (successful_tickers st) (failed_tickers st)
          (draws st) (requests st) (log st ++ [ev]).

(** [failed_tickers += 1] after printing [m]. *)
Definition fail_with (m : message) (st : state) : state :=
  let st := emit (Print m) st in
  mkState (all_data st) (successful_tickers st) (S (failed_tickers st))
          (draws st) (requests st) (log st).

(** [all_data.append(df); successful_tickers += 1] and the print after. *)
Definition succeed_with (ticker : string) (df : DataFrame) (st : state) : state :=
  emit (Print (Fetched ticker))
    (mkState (all_data st ++ [df]) (S (successful_tickers st)) (failed_tickers st)
             (draws st) (requests st) (log st)).

Definition columns_to_keep : list string :=
  ["timestamp"; "ticker"; "esgScore"; "governanceScore";
   "environmentScore"; "socialScore"].

Definition fallback_columns : list string :=
  ["ticker"; "timestamp"; "last_processing_date";
   "total_score"; "environment_score"; "social_score"; "governance_score"].

Definition column_mapping : list (string * string) :=
  [("esgScore", "total_score");
   ("governanceScore", "governance_score");
   ("environmentScore", "environment_score");
   ("socialScore", "social_score")].

Section Scraper.

(** [pd.to_datetime(_, unit="s")] on a value that is neither missing nor a
    Python int (a float, a string, a bool, a container) depends on binary
    floating point and on the pandas version.  It is left open: the value
    converts to some cell, or pandas refuses it.  A refusal is a [ValueError]
    or a [TypeError]; the model writes [ValueError] for both. *)
Variable to_datetime_other : json -> option Cell.

(** The endpoint: the answer to the [n]-th request of the run, made for
    [ticker]. *)
Variable http : nat -> string -> response.

Definition to_datetime_cell (c : Cell) : result Cell :=
  match c with
  | NaN | NaT | Val JNull => Ok NaT
  | Time t => Ok (Time t)
  | Val (JInt s) =>
      if epoch_in_bounds s then Ok (Time (Timestamp_of_epoch s))
      else Raise OutOfBoundsDatetime
  | Val v =>
      match to_datetime_other v with
      | Some c => Ok c
      | None => Raise ValueError
      end
  end.

(** [pd.to_datetime(series, unit="s")]. *)
Fixpoint to_datetime (d : list Cell) : result (list Cell) :=
  match d with
  | [] => Ok []
  | c :: rest =>
      c' <- to_datetime_cell c ;;
      rest' <- to_datetime rest ;;
      Ok (c' :: rest')
  end.

(** Lines 53-55: the test on the shape of [data] and the access to the
    series.  [Ok None] is the [else] branch (no ESG data). *)
Definition locate (data : json) : result (option json) :=
  has_chart <- py_in "esgChart" data ;;
  has_result <- (if has_chart : bool
                 then chart <- getitem data "esgChart" ;; py_in "result" chart
                 else Ok false) ;;
  if has_result : bool then
    chart <- getitem data "esgChart" ;;
    res <- getitem chart "result" ;;
    first <- getitem0 res ;;
    esg_data <- getitem first "symbolSeries" ;;
    Ok (Some esg_data)
  else Ok None.

(** Lines 58-60: the frame of the series, its ticker column and its
    converted timestamps. *)
Definition build (ticker : string) (esg_data : json) : result DataFrame :=
  df <- pd_DataFrame esg_data ;;
  let df := setcol_scalar df "ticker" (Val (JStr ticker)) in
  seconds <- getcol df "timestamp" ;;
  stamps <- to_datetime seconds ;;
  Ok (setcol df "timestamp" stamps).

(** Lines 52-65, after [data = response.json()]: the table one answer
    gives, the projection on [columns_to_keep] coming last. *)
Definition extract (ticker : string) (data : json) : result (option DataFrame) :=
  series <- locate data ;;
  match series with
  | None => Ok None
  | Some esg_data =>
      df <- build ticker esg_data ;;
      df <- select df columns_to_keep ;;
      Ok (Some df)
  end.

(** The two outer handlers: [except RequestException] and
    [except Exception]. *)
Definition on_exception (ticker : string) (e : exn) (st : state) : state :=
  if is_RequestException e then fail_with (RequestError ticker e) st
  else fail_with (ProcessingError ticker e) st.

(** One pass through the body of the [for] loop, lines 37-91.  [rand k] is
    the [k]-th value [random.uniform(0, 3)] returns. *)
Definition iteration (delay : Q) (rand : nat -> Q) (n : nat)
    (st : state) (it : nat * string) : state :=
  let '(i, ticker) := it in
  let st := emit (Print (Processing i n ticker)) st in
  let st := emit (Sleep (delay + rand (draws st))) st in
  let st := mkState (all_data st) (successful_tickers st) (failed_tickers st)
                    (S (draws st)) (requests st) (log st) in
  let r := http (requests st) ticker in
  let st := emit (Get ticker) st in
  let st := mkState (all_data st) (successful_tickers st) (failed_tickers st)
                    (draws st) (S (requests st)) (log st) in
  match r with
  | Raised e => on_exception ticker e st
  | Response status_code json_body =>
      if ok status_code then
        match json_body with
        | None => fail_with (InvalidJSON ticker) st
        | Some data =>
            match extract ticker data with
            | Ok (Some df) => succeed_with ticker df st
            | Ok None => fail_with (NoData ticker) st
            | Raise e =>
                if is_JSONDecodeError e then fail_with (InvalidJSON ticker) st
                else on_exception ticker e st
            end
        end
      else if status_code =? 429 then
        emit (Sleep 10) (emit (Print (RateLimited ticker)) st)
      else fail_with (HttpError ticker status_code) st
  end.

Definition enumerate (tickers : list string) : list (nat * string) :=
  combine (seq 1 (List.length tickers)) tickers.

Definition initial (n : nat) : state :=
  mkState [] 0 0 0 0 [Print (Starting n)].

(** The [for] loop, from any state. *)
Definition loop (delay : Q) (rand : nat -> Q) (n : nat)
    (its : list (nat * string)) (st : state) : state :=
  fold_left (iteration delay rand n) its st.

(** [fetch_historical_esg(tickers, delay)]: the table returned and the
    final state. *)
Definition fetch_historical_esg (rand : nat -> Q) (tickers : list string)
    (delay : Q) : DataFrame * state :=
  let st := loop delay rand (List.length tickers) (enumerate tickers)
              (initial (List.length tickers)) in
  let st := emit (Print (Completed (successful_tickers st) (failed_tickers st))) st in
  match all_data st with
  | [] => (empty_frame fallback_columns, emit (Print NothingFetched) st)
  | _ :: _ => (concat (all_data st), st)
  end.

(** [format_esg_data(esg_df)], with the date [datetime.now()] formats. *)
Definition format_esg_data (today : string) (esg_df : DataFrame) : result DataFrame :=
  if empty esg_df then Ok esg_df
  else
    let esg_df := rename column_mapping esg_df in
    let esg_df := setcol_scalar esg_df "last_processing_date" (Val (JStr today)) in
    let cols :=
      ["ticker"; "timestamp"; "last_processing_date"] ++
      filter (fun col => mem col (column_names esg_df))
             ["total_score"; "environment_score"; "social_score"; "governance_score"] in
    select esg_df cols.

(** Lines 156-159 of the main block: fetch, then format. *)
Definition pipeline (rand : nat -> Q) (today : string) (tickers : list string)
    (delay : Q) : result DataFrame :=
  format_esg_data today (fst (fetch_historical_esg rand tickers delay)).

End Scraper.

(** ** Shapes and invariants used in the statements *)

Definition score_fields : list string :=
  ["esgScore"; "governanceScore"; "environmentScore"; "socialScore"].

(** The shape of a frame the loop appends for [ticker]: the six kept columns
    in the kept order, the ticker on every row. *)
Definition series_frame (ticker : string) (df : DataFrame) : Prop :=
  exists n ts e g en s,
    df = mkDataFrame n
           [("timestamp", ts);
            ("ticker", repeat (Val (JStr ticker)) n);
            ("esgScore", e); ("governanceScore", g);
            ("environmentScore", en); ("socialScore", s)].

(** The shape of the table the loop returns when some ticker succeeded: the
    six kept columns, and a ticker column, one cell per row, that holds
    tickers of the input list only. *)
Definition raw_table (tickers : list string) (df : DataFrame) : Prop :=
  exists ts tk e g en s,
    df = mkDataFrame (List.length tk)
           [("timestamp", ts); ("ticker", tk);
            ("esgScore", e); ("governanceScore", g);
            ("environmentScore", en); ("socialScore", s)] /\
    Forall (fun c => exists t, c = Val (JStr t) /\ In t tickers) tk.

(** The invariant of the loop over [tickers]. *)
Definition collected (tickers : list string) (st : state) : Prop :=
  Forall (fun df => exists t, In t tickers /\ series_frame t df) (all_data st)
  /\ List.length (all_data st) = successful_tickers st.

(** The state when the answer to the request of one iteration arrives. *)
Definition arrive (delay : Q) (rand : nat -> Q) (n : nat) (st : state)
    (i : nat) (ticker : string) : state :=
  mkState (all_data st) (successful_tickers st) (failed_tickers st)
          (S (draws st)) (S (requests st))
          (log st ++ [Print (Processing i n ticker);
                      Sleep (delay + rand (draws st));
                      Get ticker]).

(** An iteration that adds no row and counts one failure. *)
Definition counted_failed (st st' : state) : Prop :=
  all_data st' = all_data st /\
  successful_tickers st' = successful_tickers st /\
  failed_tickers st' = S (failed_tickers st).

(** The columns of a formatted table, in order. *)
Definition formatted_columns : list string :=
  ["ticker"; "timestamp"; "last_processing_date";
   "total_score"; "environment_score"; "social_score"; "governance_score"].

(** ** The vocabulary of the statements *)

(** The answer has the path [esgChart.result]: it is a dict with a key
    [esgChart] whose value is a dict with a key [result]. *)
Definition has_result_path (data : json) : bool :=
  match data with
  | JObj kv =>
      match assoc "esgChart" kv with
      | Some (JObj chart) =>
          match assoc "result" chart with Some _ => true | None => false end
      | _ => false
      end
  | _ => false
  end.

(** The series of an answer of the expected shape: the [symbolSeries] of the
    first element of [esgChart.result]. *)
Definition symbol_series (data : json) : option json :=
  match data with
  | JObj kv =>
      match assoc "esgChart" kv with
      | Some (JObj chart) =>
          match assoc "result" chart with
          | Some (JArr (JObj first :: _)) => assoc "symbolSeries" first
          | _ => None
          end
      | _ => None
      end
  | _ => None
  end.

(** A frame without the column [name]. *)
Definition without (name : string) (df : DataFrame) : DataFrame :=
  mkDataFrame (nrows df)
    (filter (fun '(c, _) => negb (String.eqb c name)) (columns df)).

(** The tickers requested, in the order of the requests. *)
Definition requested (l : list event) : list string :=
  flat_map (fun ev => match ev with Get t => [t] | _ => [] end) l.

(** The column set of [df] is not the set [names]. *)
Definition differs_from (names : list string) (df : DataFrame) : Prop :=
  exists c, (In c (column_names df) /\ ~ In c names) \/
            (In c names /\ ~ In c (column_names df)).

(** An exception of neither class the first two handlers name: it reaches
    [except Exception]. *)
Definition program_error (e : exn) : Prop :=
  is_RequestException e = false /\ is_JSONDecodeError e = false.

(** Two states that differ at most in what was drawn and logged. *)
Definition same_data (st1 st2 : state) : Prop :=
  all_data st1 = all_data st2 /\
  successful_tickers st1 = successful_tickers st2 /\
  failed_tickers st1 = failed_tickers st2 /\
  requests st1 = requests st2.

(** The projection of line 65 is reached for [series] and raises [e]. *)
Definition projection_raises (to_datetime_other : json -> option Cell)
    (ticker : string) (series : json) (e : exn) : Prop :=
  exists df, build to_datetime_other ticker series = Ok df /\
             select df columns_to_keep = Raise e.

(** ** Sample inputs *)

(** A conversion that refuses every value it is asked about. *)
Definition no_conversion (v : json) : option Cell := None.

(** A random source that always draws 0. *)
Definition no_jitter (k : nat) : Q := 0%Q.

(** An endpoint that gives the same answer to every request. *)
Definition always (r : response) : nat -> string -> response := fun _ _ => r.

(** An answer of the expected shape around a series. *)
Definition answer (series : json) : json :=
  JObj [("esgChart", JObj [("result", JArr [JObj [("symbolSeries", series)]])])].

(** The series of the example document, and the row it gives. *)
Definition aaa_series : json :=
  JArr [JObj [("timestamp", JInt 1609459200); ("esgScore", JInt 45);
              ("governanceScore", JInt 40); ("environmentScore", JInt 50);
              ("socialScore", JInt 46)]].

Definition aaa_row (today : string) : list (string * Cell) :=
  [("ticker", Val (JStr "AAA"));
   ("timestamp", Time (mkTimestamp 2021 1 1 0 0 0));
   ("last_processing_date", Val (JStr today));
   ("total_score", Val (JInt 45));
   ("environment_score", Val (JInt 50));
   ("social_score", Val (JInt 46));
   ("governance_score", Val (JInt 40))].

(** Records with three of the four scores and no timestamp. *)
Definition untimed_series : json :=
  JArr [JObj [("esgScore", JInt 45); ("governanceScore", JInt 40);
              ("environmentScore", JInt 50)]].

(** Records with a timestamp and three of the four scores. *)
Definition partial_series : json :=
  JArr [JObj [("timestamp", JInt 1609459200); ("esgScore", JInt 45);
              ("governanceScore", JInt 40); ("environmentScore", JInt 50)]].

(** An endpoint that answers 200 with the document [data]. *)
Definition serving (data : json) : nat -> string -> response :=
  always (Response 200 (Some data)).

(** Endpoints that refuse every request. *)
Definition not_found : nat -> string -> response := always (Response 404 None).

Definition rate_limiting : nat -> string -> response := always (Response 429 None).

(** An answer whose chart has no result. *)
Definition chart_without_result : json := JObj [("esgChart", JObj [])].

(** An answer whose result list is empty. *)
Definition empty_result : list (string * json) := [("result", JArr [])].

(** The records of a series that is a list. *)
Definition records_of (series : json) : list json :=
  match series with JArr rs => rs | _ => [] end.

(** ** The main block *)

(** [Series.unique().tolist()]: the values in order of first appearance. *)
Definition unique (symbols : list string) : list string :=
  union_labels [] symbols.

(** Lines 144-165 of the main block, from the Symbol column read from the
    file: the tickers are the distinct symbols ([test_mode] is [False], so
    the cut to the first five is not taken), fetched with a delay of 5 and
    formatted; the report then reads the ticker and the timestamp columns of
    the formatted table.  The result is the table handed to [to_csv], with
    the final state of the fetch. *)
Definition main (to_datetime_other : json -> option Cell)
    (http : nat -> string -> response) (rand : nat -> Q) (today : string)
    (symbols : list string) : result DataFrame * state :=
  let tickers := unique symbols in
  let test_mode := false in
  let tickers := if test_mode then firstn 5 tickers else tickers in
  let run := fetch_historical_esg to_datetime_other http rand tickers 5 in
  (final_esg_df <- format_esg_data today (fst run) ;;
   _ <- getcol final_esg_df "ticker" ;;
   _ <- getcol final_esg_df "timestamp" ;;
   Ok final_esg_df,
   snd run).

(** ** What one answer does to the run *)

(** The three ways a pass through the loop can end. *)
Inductive outcome : Type :=
| Collected (df : DataFrame)
| Skipped
| Failed.

(** The way the pass for [ticker] ends when the endpoint answers [r]. *)
Definition outcome_of (to_datetime_other : json -> option Cell)
    (r : response) (ticker : string) : outcome :=
  match r with
  | Raised _ => Failed
  | Response status_code json_body =>
      if ok status_code then
        match json_body with
        | None => Failed
        | Some data =>
            match extract to_datetime_other ticker data with
            | Ok (Some df) => Collected df
            | _ => Failed
            end
        end
      else if status_code =? 429 then Skipped
      else Failed
  end.

Definition frames_of (o : outcome) : list DataFrame :=
  match o with Collected df => [df] | _ => [] end.

Definition failures_of (o : outcome) : nat :=
  match o with Failed => 1 | _ => 0 end.

Definition skips_of (o : outcome) : nat :=
  match o with Skipped => 1 | _ => 0 end.

(** The outcomes of a run: the [k]-th request is the one of the [k]-th
    ticker. *)
Definition outcomes (to_datetime_other : json -> option Cell)
    (http : nat -> string -> response) (first : nat) (tickers : list string)
    : list outcome :=
  map (fun '(k, t) => outcome_of to_datetime_other (http k t) t)
      (combine (seq first (List.length tickers)) tickers).

(** The number of rate-limit lines in a log. *)
Definition rate_limit_lines (l : list event) : nat :=
  List.length (filter (fun ev => match ev with
                                 | Print (RateLimited _) => true
                                 | _ => false
                                 end) l).

(** The seconds slept according to a log. *)
Definition slept (l : list event) : Q :=
  fold_right (fun ev acc => match ev with Sleep s => (s + acc)%Q | _ => acc end)
             0%Q l.

(** The pacing sleeps of [n] passes, the first of which makes the [k]-th
    draw. *)
Fixpoint pauses (delay : Q) (rand : nat -> Q) (k n : nat) : Q :=
  match n with
  | O => 0%Q
  | S n' => (delay + rand k + pauses delay rand (S k) n')%Q
  end.

(** A count as a number of seconds. *)
Definition Qnat (n : nat) : Q := inject_Z (Z.of_nat n).


(** Seconds since the epoch of a calendar timestamp (the inverse of
    [Timestamp_of_epoch]). *)
Definition days_from_civil (y m d : Z) : Z :=
  let y := if m <=? 2 then y - 1 else y in
  let era := y / 400 in
  let yoe := y - era * 400 in
  let mp := if m <=? 2 then m + 9 else m - 3 in
  let doy := (153 * mp + 2) / 5 + d - 1 in
  let doe := yoe * 365 + yoe / 4 - yoe / 100 + doy in
  era * 146097 + doe - 719468.

Definition epoch_of_Timestamp (t : Timestamp) : Z :=
  days_from_civil (year t) (month t) (day t) * 86400
  + hour t * 3600 + minute t * 60 + second t.

(** ** Records and their timestamps *)







(** ** Formatting *)

(** The label [rename] gives to the column labelled [c]. *)
Definition renamed (c : string) : string :=
  match assoc c column_mapping with Some c' => c' | None => c end.


(** A table with a ticker, a timestamp and two of the four scores. *)
Definition two_score_table : DataFrame :=
  mkDataFrame 1
    [("esgScore", [Val (JInt 45)]); ("ticker", [Val (JStr "AAA")]);
     ("socialScore", [Val (JInt 46)]); ("timestamp", [NaT])].

(** A table with scores and no ticker. *)
Definition tickerless_table : DataFrame :=
  mkDataFrame 1 [("timestamp", [NaT]); ("esgScore", [Val (JInt 45)])].

(** ** Stacking frames *)


(** What formatting [two_score_table] gives on 2026-11-04. *)
Definition two_score_formatted : DataFrame :=
  mkDataFrame 1
    [("ticker", [Val (JStr "AAA")]); ("timestamp", [NaT]);
     ("last_processing_date", [Val (JStr "2026-11-04")]);
     ("total_score", [Val (JInt 45)]); ("social_score", [Val (JInt 46)])].

(** A series given by columns, none of which has a value. *)
Definition empty_columns : json :=
  JObj [("timestamp", JArr []); ("esgScore", JArr []);
        ("governanceScore", JArr []); ("environmentScore", JArr []);
        ("socialScore", JArr [])].

(** * Properties *)

(** ** Labels and association lists *)

Lemma mem_In (x : string) (l : list string) : mem x l = true <-> In x l.
Proof.
  unfold mem. rewrite existsb_exists. split.
  - intros [y [Hy E]]. apply String.eqb_eq in E. now subst.
  - intros H. exists x. split; [assumption | apply String.eqb_refl].
Qed.

Lemma mem_false (x : string) (l : list string) : mem x l = false <-> ~ In x l.
Proof.
  rewrite <- mem_In. destruct (mem x l); split; congruence.
Qed.


Lemma assoc_None {A} (k : string) (kv : list (string * A)) :
  assoc k kv = None <-> ~ In k (map fst kv).
Proof.
  induction kv as [|[k' v'] rest IH]; simpl; [tauto|].
  destruct (String.eqb_spec k k'); subst.
  - split; [discriminate | intros H; exfalso; apply H; now left].
  - rewrite IH. split; intros H; [intros [E|E]; [congruence | tauto] | tauto].
Qed.

Lemma assoc_replace_same (name : string) d cols :
  assoc name (replace_col name d cols) = Some d.
Proof.
  induction cols as [|[c old] rest IH]; simpl.
  - now rewrite String.eqb_refl.
  - destruct (String.eqb_spec name c) as [E|E]; simpl.
    + now rewrite E, String.eqb_refl.
    + apply String.eqb_neq in E. now rewrite E.
Qed.

Lemma assoc_replace_other (name name' : string) d cols :
  name <> name' ->
  assoc name (replace_col name' d cols) = assoc name cols.
Proof.
  intros N. induction cols as [|[c old] rest IH]; simpl.
  - apply String.eqb_neq in N. now rewrite N.
  - destruct (String.eqb_spec name' c) as [E|E]; simpl.
    + subst c. apply String.eqb_neq in N. now rewrite N.
    + now rewrite IH.
Qed.

Lemma names_replace_col (name : string) d cols x :
  In x (map fst (replace_col name d cols)) <-> x = name \/ In x (map fst cols).
Proof.
  induction cols as [|[c old] rest IH]; simpl.
  - intuition congruence.
  - destruct (String.eqb_spec name c) as [E|E]; simpl.
    + subst. intuition congruence.
    + rewrite IH. intuition congruence.
Qed.

Lemma union_labels_acc (acc l : list string) :
  (forall x, In x l -> In x acc) -> union_labels acc l = acc.
Proof.
  induction l as [|x rest IH]; simpl; intros H; [reflexivity|].
  assert (M : mem x acc = true) by (apply mem_In, H; now left).
  rewrite M. apply IH. intros y Hy. apply H. now right.
Qed.

Lemma union_labels_app (acc l1 l2 : list string) :
  union_labels acc (l1 ++ l2) = union_labels (union_labels acc l1) l2.
Proof.
  revert acc. induction l1 as [|x rest IH]; simpl; intros acc; [reflexivity|].
  destruct (mem x acc); apply IH.
Qed.

Lemma In_union_labels (acc l : list string) (x : string) :
  In x (union_labels acc l) <-> In x acc \/ In x l.
Proof.
  revert acc. induction l as [|y rest IH]; simpl; intros acc; [tauto|].
  destruct (mem y acc) eqn:M; rewrite IH.
  - apply mem_In in M. intuition (subst; auto).
  - rewrite in_app_iff. simpl. intuition (subst; auto).
Qed.

Lemma union_labels_NoDup (acc l : list string) :
  NoDup acc -> NoDup (union_labels acc l).
Proof.
  revert acc. induction l as [|x rest IH]; simpl; intros acc N; [assumption|].
  destruct (mem x acc) eqn:M; apply IH; [assumption|].
  apply mem_false in M. apply NoDup_app; [assumption | repeat constructor; simpl; tauto |].
  intros y Hy [<-|[]]. contradiction.
Qed.

(** ** Frames *)

Lemma names_of_labelled {A} (f : string -> A) (names : list string) :
  map fst (map (fun c => (c, f c)) names) = names.
Proof. rewrite map_map. simpl. apply map_id. Qed.

(** The frame of a JSON value has no two columns with the same label, so a
    lookup by label has one candidate. *)
Lemma pd_DataFrame_labels data df :
  pd_DataFrame data = Ok df -> NoDup (column_names df).
Proof.
  destruct data as [| | | | s | [|v l] | kv]; simpl; try discriminate.
  - intros E. inversion E. constructor.
  - intros E. inversion E. constructor.
  - destruct v; try (intros E; inversion E; constructor).
    destruct (forallb is_dict l); [|discriminate].
    injection 1 as <-. unfold column_names, from_records. simpl.
    rewrite names_of_labelled. apply union_labels_NoDup. constructor.
  - unfold from_dict.
    pose proof (union_labels_NoDup [] (map fst kv) (NoDup_nil _)) as N.
    destruct (union_labels [] (map fst kv)) as [|c names] eqn:U;
      [intros E; inversion E; constructor|].
    destruct (array_lengths _).
    + destruct (existsb is_dict _); [|discriminate].
      injection 1 as <-. unfold column_names.
      cbn [columns map fst]. now rewrite names_of_labelled.
    + destruct (negb _ || _); [discriminate|].
      injection 1 as <-. unfold column_names.
      cbn [columns map fst]. now rewrite names_of_labelled.
Qed.

(** A successful projection has exactly the requested labels, in the
    requested order. *)
Lemma select_Ok (df out : DataFrame) (names : list string) :
  select df names = Ok out ->
  out = mkDataFrame (nrows df)
          (map (fun c => (c, match assoc c (columns df) with
                             | Some d => d
                             | None => []
                             end)) names).
Proof.
  unfold select. destruct (filter _ names); [|discriminate].
  intros E. now inversion E.
Qed.

(** A projection raises exactly when a requested label is missing, and the
    error names every missing label. *)
Lemma select_missing (df : DataFrame) (names : list string) (c : string) :
  In c names -> ~ In c (column_names df) ->
  exists missing, select df names = Raise (KeyError missing) /\ In c missing.
Proof.
  intros Hc Hn. unfold select.
  assert (F : In c (filter (fun c => negb (mem c (column_names df))) names)).
  { apply filter_In. split; [assumption|].
    apply mem_false in Hn. now rewrite Hn. }
  destruct (filter _ names) as [|m ms]; [contradiction|].
  exists (m :: ms). split; [reflexivity | assumption].
Qed.

(** ** Concatenation and formatting of the collected frames *)

Lemma concat_series (tickers : list string) (frames : list DataFrame) :
  frames <> [] ->
  Forall (fun df => exists t, In t tickers /\ series_frame t df) frames ->
  raw_table tickers (concat frames).
Proof.
  intros NE F. unfold concat.
  assert (N : union_labels [] (flat_map column_names frames) = columns_to_keep).
  { destruct frames as [|df rest]; [congruence|].
    assert (K : forall df', In df' (df :: rest) -> column_names df' = columns_to_keep).
    { intros df' Hin. rewrite Forall_forall in F.
      destruct (F df' Hin) as (t & _ & n & ts & e & g & en & s & ->). reflexivity. }
    simpl. rewrite union_labels_app, (K df) by (now left).
    change (union_labels [] columns_to_keep) with columns_to_keep.
    apply union_labels_acc. intros x Hx. apply in_flat_map in Hx.
    destruct Hx as (df' & Hin & Hx). rewrite (K df') in Hx by (now right).
    exact Hx. }
  rewrite N. clear N NE. unfold raw_table. simpl. do 6 eexists. split.
  - f_equal. induction F as [|df rest (t & _ & n & ts & e & g & en & s & ->) _ IH];
      [reflexivity|].
    simpl. rewrite length_app, repeat_length. now f_equal.
  - induction F as [|df rest (t & Ht & n & ts & e & g & en & s & ->) _ IH];
      [constructor|].
    simpl. apply Forall_app. split; [|exact IH].
    apply Forall_forall. intros c Hc. apply repeat_spec in Hc. eauto.
Qed.

(** [format_esg_data] on a table of the loop: unchanged when it has no row,
    otherwise the seven columns with the date on every row. *)
Lemma format_raw_table (today : string) (tk ts e g en s : list Cell) :
  format_esg_data today
    (mkDataFrame (List.length tk)
       [("timestamp", ts); ("ticker", tk);
        ("esgScore", e); ("governanceScore", g);
        ("environmentScore", en); ("socialScore", s)]) =
  Ok (match tk with
      | [] =>
          mkDataFrame 0
            [("timestamp", ts); ("ticker", tk);
             ("esgScore", e); ("governanceScore", g);
             ("environmentScore", en); ("socialScore", s)]
      | _ :: _ =>
          mkDataFrame (List.length tk)
            [("ticker", tk); ("timestamp", ts);
             ("last_processing_date", repeat (Val (JStr today)) (List.length tk));
             ("total_score", e); ("environment_score", en);
             ("social_score", s); ("governance_score", g)]
      end).
Proof.
  destruct tk as [|c tk]; reflexivity.
Qed.

Lemma In_to_records (df : DataFrame) (r : list (string * Cell)) :
  In r (to_records df) -> exists i, (i < nrows df)%nat /\ r = row df i.
Proof.
  unfold to_records. intros H. apply in_map_iff in H.
  destruct H as (i & E & Hi). apply in_seq in Hi.
  exists i. split; [lia | now symmetry].
Qed.

Section Run.

Variable to_datetime_other : json -> option Cell.
Variable http : nat -> string -> response.

Lemma build_Ok (ticker : string) (esg_data : json) (df : DataFrame) :
  build to_datetime_other ticker esg_data = Ok df ->
  exists df0 seconds stamps,
    pd_DataFrame esg_data = Ok df0 /\
    getcol (setcol_scalar df0 "ticker" (Val (JStr ticker))) "timestamp" = Ok seconds /\
    to_datetime to_datetime_other seconds = Ok stamps /\
    df = setcol (setcol_scalar df0 "ticker" (Val (JStr ticker))) "timestamp" stamps.
Proof.
  unfold build.
  destruct (pd_DataFrame esg_data) as [df0|]; simpl; [|discriminate].
  destruct (getcol _ "timestamp") as [seconds|] eqn:G; simpl; [|discriminate].
  destruct (to_datetime _ seconds) as [stamps|] eqn:T; simpl; [|discriminate].
  intros E. inversion E. exists df0, seconds, stamps. auto.
Qed.

Lemma extract_Some (ticker : string) (data : json) (df : DataFrame) :
  extract to_datetime_other ticker data = Ok (Some df) -> series_frame ticker df.
Proof.
  unfold extract.
  destruct (locate data) as [[esg_data|]|]; simpl; try discriminate.
  destruct (build to_datetime_other ticker esg_data) as [b|] eqn:B; simpl; [|discriminate].
  destruct (select b columns_to_keep) as [out|] eqn:S; simpl; [|discriminate].
  intros E. inversion E. subst out. clear E.
  apply select_Ok in S.
  apply build_Ok in B. destruct B as (df0 & seconds & stamps & _ & _ & _ & B).
  subst b. simpl in S.
  rewrite assoc_replace_same in S.
  rewrite !assoc_replace_other, assoc_replace_same in S by discriminate.
  rewrite S. simpl. unfold series_frame, setcol_scalar. simpl. eauto 10.
Qed.

Lemma iteration_unfold delay rand n st i ticker :
  iteration to_datetime_other http delay rand n st (i, ticker) =
  let st1 := arrive delay rand n st i ticker in
  match http (requests st) ticker with
  | Raised e => on_exception ticker e st1
  | Response status_code json_body =>
      if ok status_code then
        match json_body with
        | None => fail_with (InvalidJSON ticker) st1
        | Some data =>
            match extract to_datetime_other ticker data with
            | Ok (Some df) => succeed_with ticker df st1
            | Ok None => fail_with (NoData ticker) st1
            | Raise e =>
                if is_JSONDecodeError e then fail_with (InvalidJSON ticker) st1
                else on_exception ticker e st1
            end
        end
      else if status_code =? 429 then
        emit (Sleep 10) (emit (Print (RateLimited ticker)) st1)
      else fail_with (HttpError ticker status_code) st1
  end.
Proof.
  unfold iteration, arrive, emit. cbn.
  rewrite <- !app_assoc. reflexivity.
Qed.

(** Every way through the body either appends one frame of the right shape
    and counts a success, or leaves the collected frames as they are. *)
Lemma iteration_all_data delay rand n st i ticker :
  let st' := iteration to_datetime_other http delay rand n st (i, ticker) in
  (exists df, series_frame ticker df /\
              all_data st' = all_data st ++ [df] /\
              successful_tickers st' = S (successful_tickers st) /\
              failed_tickers st' = failed_tickers st)
  \/ (all_data st' = all_data st /\
      successful_tickers st' = successful_tickers st).
Proof.
  cbv zeta. rewrite iteration_unfold. cbv zeta.
  destruct (http (requests st) ticker) as [e|status_code [data|]].
  - right. unfold on_exception. destruct (is_RequestException e); now cbn.
  - destruct (ok status_code).
    + destruct (extract to_datetime_other ticker data) as [[df|]|e] eqn:X.
      * left. exists df. split; [now apply extract_Some in X | now cbn].
      * right. now cbn.
      * right. unfold on_exception.
        destruct (is_JSONDecodeError e), (is_RequestException e); now cbn.
    + right. destruct (status_code =? 429); now cbn.
  - right. destruct (ok status_code); [|destruct (status_code =? 429)]; now cbn.
Qed.

Lemma iteration_collected tickers delay rand n st i ticker :
  In ticker tickers -> collected tickers st ->
  collected tickers (iteration to_datetime_other http delay rand n st (i, ticker)).
Proof.
  intros Ht [F L].
  destruct (iteration_all_data delay rand n st i ticker)
    as [(df & Sh & A & Su & _) | (A & Su)]; unfold collected; rewrite A, Su.
  - split.
    + apply Forall_app. split; [assumption|]. constructor; [eauto | constructor].
    + rewrite length_app. simpl. lia.
  - now split.
Qed.

Lemma loop_collected tickers delay rand n its st :
  (forall it, In it its -> In (snd it) tickers) ->
  collected tickers st -> collected tickers (loop to_datetime_other http delay rand n its st).
Proof.
  revert st. induction its as [|[i t] rest IH]; intros st Hin C; [assumption|].
  simpl. apply IH.
  - intros it Hit. apply Hin. now right.
  - apply iteration_collected; [|assumption]. apply (Hin (i, t)). now left.
Qed.

Lemma enumerate_In tickers it :
  In it (enumerate tickers) -> In (snd it) tickers.
Proof.
  destruct it as [i t]. unfold enumerate. intros H.
  apply in_combine_r in H. exact H.
Qed.

Lemma fetch_collected rand tickers delay :
  collected tickers
    (loop to_datetime_other http delay rand (List.length tickers) (enumerate tickers)
       (initial (List.length tickers))).
Proof.
  apply loop_collected; [apply enumerate_In|].
  split; [constructor | reflexivity].
Qed.

End Run.

(** ** The table a run returns *)

Section Table.

Variable to_datetime_other : json -> option Cell.
Variable http : nat -> string -> response.

(** [if all_data:] tests the list of collected frames, and that list has
    one frame per successful ticker. *)
Lemma fetch_cases rand tickers delay :
  let run := fetch_historical_esg to_datetime_other http rand tickers delay in
  (successful_tickers (snd run) = 0%nat /\
   fst run = empty_frame fallback_columns)
  \/ ((0 < successful_tickers (snd run))%nat /\ raw_table tickers (fst run)).
Proof.
  cbv zeta. unfold fetch_historical_esg.
  destruct (fetch_collected to_datetime_other http rand tickers delay) as [F L].
  set (st := loop _ _ _ _ _ _ _) in *.
  cbn [emit all_data successful_tickers failed_tickers].
  destruct (all_data st) as [|df rest]; cbn [fst snd emit successful_tickers].
  - left. split; [now rewrite <- L | reflexivity].
  - right. split; [rewrite <- L; simpl; lia|].
    apply concat_series; [discriminate | assumption].
Qed.

(** The pipeline never raises: it returns the fallback table, a table of
    the loop that has no row, or a formatted table. *)
Lemma pipeline_cases rand today tickers delay :
  let run := fetch_historical_esg to_datetime_other http rand tickers delay in
  (successful_tickers (snd run) = 0%nat /\
   fst run = empty_frame fallback_columns /\
   pipeline to_datetime_other http rand today tickers delay
     = Ok (empty_frame fallback_columns))
  \/ (exists ts e g en s,
        fst run = mkDataFrame 0
                    [("timestamp", ts); ("ticker", []);
                     ("esgScore", e); ("governanceScore", g);
                     ("environmentScore", en); ("socialScore", s)] /\
        pipeline to_datetime_other http rand today tickers delay = Ok (fst run))
  \/ (exists ts tk e g en s,
        tk <> [] /\
        Forall (fun c => exists t, c = Val (JStr t) /\ In t tickers) tk /\
        fst run = mkDataFrame (List.length tk)
                    [("timestamp", ts); ("ticker", tk);
                     ("esgScore", e); ("governanceScore", g);
                     ("environmentScore", en); ("socialScore", s)] /\
        pipeline to_datetime_other http rand today tickers delay =
        Ok (mkDataFrame (List.length tk)
              [("ticker", tk); ("timestamp", ts);
               ("last_processing_date",
                repeat (Val (JStr today)) (List.length tk));
               ("total_score", e); ("environment_score", en);
               ("social_score", s); ("governance_score", g)])).
Proof.
  cbv zeta. unfold pipeline.
  destruct (fetch_cases rand tickers delay)
    as [[Z E] | [_ (ts & tk & e & g & en & s & E & F)]]; rewrite E.
  - left. repeat split; assumption || reflexivity.
  - right. rewrite format_raw_table. destruct tk as [|c tk].
    + left. exists ts, e, g, en, s. split; reflexivity.
    + right. exists ts, (c :: tk), e, g, en, s.
      repeat split; [discriminate | assumption].
Qed.

End Table.

(** ** The claims on the returned table *)

Lemma ok_2xx (status_code : Z) : 200 <= status_code < 300 -> ok status_code = true.
Proof. unfold ok. intros H. destruct (400 <=? status_code) eqn:E; [lia | reflexivity]. Qed.

Section Claims_on_the_table.

Variable to_datetime_other : json -> option Cell.
Variable http : nat -> string -> response.

(** C1, as amended.  If zero tickers succeed, [fetch_historical_esg] returns
    the table with no row whose columns are exactly the seven columns of a
    formatted table, in the same order; formatting that table is a no-op
    that returns it unchanged. *)
Theorem fallback_has_formatted_columns rand tickers delay today :
  let run := fetch_historical_esg to_datetime_other http rand tickers delay in
  successful_tickers (snd run) = 0%nat ->
  fst run = empty_frame fallback_columns /\
  empty (fst run) = true /\
  to_records (fst run) = [] /\
  column_names (fst run) = formatted_columns /\
  format_esg_data today (fst run) = Ok (fst run).
Proof.
  cbv zeta. intros Z.
  destruct (fetch_cases to_datetime_other http rand tickers delay)
    as [[_ E] | [P _]]; [|lia].
  rewrite E. repeat split.
Qed.

(** The columns of a formatted non-empty table of the loop are the seven
    formatted columns: the loop only keeps frames that have the four
    scores. *)
Lemma formatted_table_columns rand tickers delay today :
  let raw := fst (fetch_historical_esg to_datetime_other http rand tickers delay) in
  empty raw = false ->
  exists out, format_esg_data today raw = Ok out /\
              column_names out = formatted_columns.
Proof.
  cbv zeta. intros NE.
  destruct (pipeline_cases to_datetime_other http rand today tickers delay)
    as [(_ & E & _) | [(ts & e & g & en & s & E & _)
                      | (ts & tk & e & g & en & s & N & _ & E & P)]].
  - rewrite E in NE. discriminate.
  - rewrite E in NE. discriminate.
  - unfold pipeline in P. rewrite P. eexists. split; reflexivity.
Qed.

(** C2.  For every non-empty fetched table, formatting succeeds and the
    columns of the result are ticker, timestamp, last_processing_date
    followed by those of total_score, environment_score, social_score,
    governance_score that the renamed input has, in that order; a score
    column the input lacks is omitted. *)
Theorem format_keeps_present_scores rand tickers delay today :
  let raw := fst (fetch_historical_esg to_datetime_other http rand tickers delay) in
  empty raw = false ->
  exists out,
    format_esg_data today raw = Ok out /\
    column_names out =
      ["ticker"; "timestamp"; "last_processing_date"] ++
      filter (fun col => mem col (column_names (rename column_mapping raw)))
             ["total_score"; "environment_score"; "social_score"; "governance_score"].
Proof.
  cbv zeta. intros NE.
  destruct (pipeline_cases to_datetime_other http rand today tickers delay)
    as [(_ & E & _) | [(ts & e & g & en & s & E & _)
                      | (ts & tk & e & g & en & s & N & _ & E & P)]].
  - rewrite E in NE. discriminate.
  - rewrite E in NE. discriminate.
  - unfold pipeline in P. rewrite P, E. eexists. split; reflexivity.
Qed.

(** C7.  The pipeline returns a table, and the ticker of every row of that
    table is a ticker of the input list. *)
Theorem output_tickers_from_input rand today tickers delay :
  exists out,
    pipeline to_datetime_other http rand today tickers delay = Ok out /\
    forall r, In r (to_records out) ->
      exists t, assoc "ticker" r = Some (Val (JStr t)) /\ In t tickers.
Proof.
  destruct (pipeline_cases to_datetime_other http rand today tickers delay)
    as [(_ & _ & P) | [(ts & e & g & en & s & E & P)
                      | (ts & tk & e & g & en & s & N & F & E & P)]];
    rewrite P; eexists; (split; [reflexivity|]).
  - intros r [].
  - rewrite E. intros r [].
  - intros r Hr. apply In_to_records in Hr. destruct Hr as (i & Hi & ->).
    simpl in Hi. simpl. rewrite Forall_forall in F.
    destruct (F (nth i tk NaN)) as (t & Et & Ht); [now apply nth_In|].
    exists t. split; [now rewrite Et | assumption].
Qed.

(** C8.  The pipeline returns a table, and every row of that table carries
    the processing date of the run in last_processing_date. *)
Theorem one_processing_date rand today tickers delay :
  exists out,
    pipeline to_datetime_other http rand today tickers delay = Ok out /\
    forall r, In r (to_records out) ->
      assoc "last_processing_date" r = Some (Val (JStr today)).
Proof.
  destruct (pipeline_cases to_datetime_other http rand today tickers delay)
    as [(_ & _ & P) | [(ts & e & g & en & s & E & P)
                      | (ts & tk & e & g & en & s & N & F & E & P)]];
    rewrite P; eexists; (split; [reflexivity|]).
  - intros r [].
  - rewrite E. intros r [].
  - intros r Hr. apply In_to_records in Hr. destruct Hr as (i & Hi & ->).
    simpl in Hi. simpl. f_equal.
    apply (repeat_spec (List.length tk)). apply nth_In.
    now rewrite repeat_length.
Qed.

End Claims_on_the_table.

(** ** Exceptions raised while an answer is processed *)

Ltac raised :=
  match goal with
  | H : Raise _ = Raise _ |- _ => inversion H; subst; split; reflexivity
  | H : Ok _ = Raise _ |- _ => discriminate H
  end.

Lemma py_in_raises k x e : py_in k x = Raise e -> program_error e.
Proof. destruct x; simpl; intros H; raised. Qed.

Lemma getitem_raises x k e : getitem x k = Raise e -> program_error e.
Proof.
  destruct x; simpl; intros H; try raised.
  destruct (assoc k fields); raised.
Qed.

Lemma getitem0_raises x e : getitem0 x = Raise e -> program_error e.
Proof.
  destruct x as [| | | | s | [|v l] | kv]; simpl; intros H; try raised.
  destruct s; raised.
Qed.

Lemma from_dict_raises kv e : from_dict kv = Raise e -> program_error e.
Proof.
  unfold from_dict.
  destruct (union_labels [] (map fst kv)); [intros H; raised|].
  destruct (array_lengths _).
  - destruct (existsb is_dict _); intros H; raised.
  - destruct (negb _ || _); intros H; raised.
Qed.

Lemma pd_DataFrame_raises data e : pd_DataFrame data = Raise e -> program_error e.
Proof.
  destruct data as [| | | | s | [|v l] | kv]; simpl; intros H; try raised.
  - destruct v; try raised. destruct (forallb is_dict l); raised.
  - now apply from_dict_raises in H.
Qed.

Lemma getcol_raises df name e : getcol df name = Raise e -> program_error e.
Proof. unfold getcol. destruct (assoc name (columns df)); intros H; raised. Qed.

Lemma select_raises df names e : select df names = Raise e -> program_error e.
Proof. unfold select. destruct (filter _ names); intros H; raised. Qed.

Section Raised.

Variable to_datetime_other : json -> option Cell.

Lemma to_datetime_cell_raises c e :
  to_datetime_cell to_datetime_other c = Raise e -> program_error e.
Proof.
  destruct c as [| | v | t]; simpl; intros H; try raised.
  destruct v; try raised;
    try (destruct (to_datetime_other _); raised).
  destruct (epoch_in_bounds n); raised.
Qed.

Lemma to_datetime_raises d e :
  to_datetime to_datetime_other d = Raise e -> program_error e.
Proof.
  induction d as [|c rest IH]; simpl; intros H; [raised|].
  destruct (to_datetime_cell to_datetime_other c) eqn:C; simpl in H.
  - destruct (to_datetime to_datetime_other rest); simpl in H; [raised|].
    apply IH. exact H.
  - inversion H. subst. now apply to_datetime_cell_raises in C.
Qed.

Lemma locate_raises data e : locate data = Raise e -> program_error e.
Proof.
  unfold locate.
  destruct (py_in "esgChart" data) as [has_chart|e0] eqn:I; simpl;
    [|intros H; inversion H; subst; now apply py_in_raises in I].
  destruct has_chart; simpl.
  - destruct (getitem data "esgChart") as [chart|e0] eqn:C; simpl;
      [|intros H; inversion H; subst; now apply getitem_raises in C].
    destruct (py_in "result" chart) as [[|]|e0] eqn:R; simpl;
      [| intros H; raised | intros H; inversion H; subst; now apply py_in_raises in R].
    destruct (getitem chart "result") as [res|e0] eqn:Rs; simpl;
      [|intros H; inversion H; subst; now apply getitem_raises in Rs].
    destruct (getitem0 res) as [first|e0] eqn:F; simpl;
      [|intros H; inversion H; subst; now apply getitem0_raises in F].
    destruct (getitem first "symbolSeries") as [esg|e0] eqn:S; simpl;
      [intros H; raised|intros H; inversion H; subst; now apply getitem_raises in S].
  - intros H; raised.
Qed.

Lemma build_raises ticker esg_data e :
  build to_datetime_other ticker esg_data = Raise e -> program_error e.
Proof.
  unfold build.
  destruct (pd_DataFrame esg_data) as [df0|e0] eqn:D; simpl;
    [|intros H; inversion H; subst; now apply pd_DataFrame_raises in D].
  destruct (getcol _ "timestamp") as [seconds|e0] eqn:G; simpl;
    [|intros H; inversion H; subst; now apply getcol_raises in G].
  destruct (to_datetime _ seconds) as [stamps|e0] eqn:T; simpl;
    [intros H; raised|intros H; inversion H; subst; now apply to_datetime_raises in T].
Qed.

(** Whatever is raised between line 53 and line 65 is neither a
    [RequestException] nor a [JSONDecodeError]. *)
Lemma extract_raises ticker data e :
  extract to_datetime_other ticker data = Raise e -> program_error e.
Proof.
  unfold extract.
  destruct (locate data) as [[esg_data|]|e0] eqn:L; simpl;
    [| intros H; raised | intros H; inversion H; subst; now apply locate_raises in L].
  destruct (build to_datetime_other ticker esg_data) as [df|e0] eqn:B; simpl;
    [|intros H; inversion H; subst; now apply build_raises in B].
  destruct (select df columns_to_keep) as [out|e0] eqn:S; simpl;
    [intros H; raised|intros H; inversion H; subst; now apply select_raises in S].
Qed.

End Raised.

(** ** The claims on one pass through the loop *)

Lemma locate_symbol_series data series :
  symbol_series data = Some series -> locate data = Ok (Some series).
Proof.
  unfold symbol_series, locate.
  destruct data as [| | | | | |kv]; try discriminate.
  simpl. destruct (assoc "esgChart" kv) as [chart|]; [|discriminate].
  destruct chart as [| | | | | |ch]; try discriminate.
  simpl. destruct (assoc "result" ch) as [res|]; [|discriminate].
  destruct res as [| | | | |[|first rest]|]; try discriminate.
  destruct first as [| | | | | |fields]; try discriminate.
  simpl. intros ->. reflexivity.
Qed.

Lemma locate_no_path data :
  has_result_path data = false ->
  locate data = Ok None \/ locate data = Raise TypeError.
Proof.
  unfold has_result_path, locate.
  destruct data as [| | | |s|l|kv]; simpl; auto.
  - destruct (str_contains "esgChart" s); simpl; auto.
  - destruct (existsb (eq_str "esgChart") l); simpl; auto.
  - destruct (assoc "esgChart" kv) as [chart|]; simpl; auto.
    destruct chart as [| | | |s|l|ch]; simpl; auto.
    + destruct (str_contains "result" s); simpl; auto.
    + destruct (existsb (eq_str "result") l); simpl; auto.
    + destruct (assoc "result" ch); [discriminate | simpl; auto].
Qed.

Lemma map_snd_enumerate tickers : map snd (enumerate tickers) = tickers.
Proof.
  unfold enumerate. generalize 1%nat.
  induction tickers as [|t rest IH]; intros k; simpl; [reflexivity|].
  now rewrite IH.
Qed.

Lemma requested_app l1 l2 : requested (l1 ++ l2) = requested l1 ++ requested l2.
Proof. apply flat_map_app. Qed.

Section Claims_on_the_loop.

Variable to_datetime_other : json -> option Cell.
Variable http : nat -> string -> response.

(** A 2xx answer whose processing raises is handled by [except Exception]. *)
Lemma iteration_raise delay rand n st i ticker status_code data e :
  200 <= status_code < 300 ->
  http (requests st) ticker = Response status_code (Some data) ->
  extract to_datetime_other ticker data = Raise e ->
  iteration to_datetime_other http delay rand n st (i, ticker) =
  fail_with (ProcessingError ticker e) (arrive delay rand n st i ticker).
Proof.
  intros S H X. rewrite iteration_unfold. cbv zeta.
  rewrite H, (ok_2xx _ S), X.
  destruct (extract_raises _ _ _ _ X) as [R J].
  unfold on_exception. now rewrite J, R.
Qed.

Lemma fail_with_counted m delay rand n st i ticker :
  counted_failed st (fail_with m (arrive delay rand n st i ticker)).
Proof. repeat split. Qed.

(** Every pass through the loop makes one request, for its own ticker. *)
Lemma iteration_requested delay rand n st i ticker :
  requested (log (iteration to_datetime_other http delay rand n st (i, ticker)))
  = requested (log st) ++ [ticker].
Proof.
  rewrite iteration_unfold. cbv zeta.
  destruct (http (requests st) ticker) as [e|status_code [data|]].
  - unfold on_exception. destruct (is_RequestException e); cbn;
      rewrite !requested_app; cbn; now rewrite app_nil_r.
  - destruct (ok status_code).
    + destruct (extract to_datetime_other ticker data) as [[df|]|e];
        [| |unfold on_exception;
            destruct (is_JSONDecodeError e), (is_RequestException e)];
        cbn; rewrite !requested_app; cbn; now rewrite app_nil_r.
    + destruct (status_code =? 429); cbn;
        rewrite !requested_app; cbn; now rewrite ?app_nil_r.
  - destruct (ok status_code); [|destruct (status_code =? 429)]; cbn;
      rewrite !requested_app; cbn; now rewrite ?app_nil_r.
Qed.

Lemma loop_requested delay rand n its st :
  requested (log (loop to_datetime_other http delay rand n its st))
  = requested (log st) ++ map snd its.
Proof.
  unfold loop. revert st.
  induction its as [|[i t] rest IH]; intros st; cbn [fold_left map snd].
  - now rewrite app_nil_r.
  - rewrite IH, iteration_requested, <- app_assoc. reflexivity.
Qed.

(** The run asks for each ticker of the list once, in the order of the
    list. *)
Lemma fetch_requested rand tickers delay :
  requested (log (snd (fetch_historical_esg to_datetime_other http rand tickers delay)))
  = tickers.
Proof.
  unfold fetch_historical_esg.
  set (st := loop _ _ _ _ _ _ _).
  assert (R : requested (log st) = tickers).
  { unfold st. rewrite loop_requested, map_snd_enumerate. reflexivity. }
  cbn [emit all_data].
  destruct (all_data st); cbn [snd emit log]; rewrite !requested_app, R; cbn;
    now rewrite ?app_nil_r.
Qed.

(** C4.  When the request of a ticker is answered with status 429, the
    pass prints the rate-limit line and sleeps 10 seconds after the one
    request it made; it adds no frame and changes neither counter; the loop
    goes on with the next ticker.  Over the whole run every ticker is
    requested once, so the ticker is not asked for again. *)
Theorem rate_limited_ticker_is_dropped delay rand n st i ticker rest body :
  http (requests st) ticker = Response 429 body ->
  let st' := iteration to_datetime_other http delay rand n st (i, ticker) in
  log st' = log st ++ [Print (Processing i n ticker);
                       Sleep (delay + rand (draws st));
                       Get ticker;
                       Print (RateLimited ticker);
                       Sleep 10] /\
  all_data st' = all_data st /\
  successful_tickers st' = successful_tickers st /\
  failed_tickers st' = failed_tickers st /\
  requests st' = S (requests st) /\
  loop to_datetime_other http delay rand n ((i, ticker) :: rest) st
    = loop to_datetime_other http delay rand n rest st' /\
  forall rand' tickers delay',
    requested (log (snd (fetch_historical_esg to_datetime_other http
                           rand' tickers delay'))) = tickers.
Proof.
  intros H. cbv zeta.
  assert (E : iteration to_datetime_other http delay rand n st (i, ticker) =
              emit (Sleep 10)
                (emit (Print (RateLimited ticker)) (arrive delay rand n st i ticker))).
  { rewrite iteration_unfold. cbv zeta. rewrite H. reflexivity. }
  split; [rewrite E; cbn; now rewrite <- !app_assoc|].
  do 4 (split; [now rewrite E|]).
  split; [reflexivity | apply fetch_requested].
Qed.

(** C5.  When a ticker gets a 2xx answer whose JSON lacks the path
    esgChart.result, the pass adds no frame, adds one to the count of failed
    tickers and leaves the count of successes; the loop goes on with the
    next ticker. *)
Theorem missing_result_path_counts_failed delay rand n st i ticker rest
    status_code data :
  200 <= status_code < 300 ->
  http (requests st) ticker = Response status_code (Some data) ->
  has_result_path data = false ->
  let st' := iteration to_datetime_other http delay rand n st (i, ticker) in
  counted_failed st st' /\
  loop to_datetime_other http delay rand n ((i, ticker) :: rest) st
    = loop to_datetime_other http delay rand n rest st'.
Proof.
  intros S H P. cbv zeta. split; [|reflexivity].
  destruct (locate_no_path data P) as [L|L].
  - rewrite iteration_unfold. cbv zeta. rewrite H, (ok_2xx _ S).
    unfold extract. rewrite L. cbn [bind]. apply fail_with_counted.
  - rewrite (iteration_raise delay rand n st i ticker status_code data TypeError S H).
    + apply fail_with_counted.
    + unfold extract. now rewrite L.
Qed.

(** C10.  When a ticker gets a 2xx answer that has the keys esgChart and
    esgChart.result with an empty result list, taking the first element
    raises IndexError; the generic handler prints its line, the pass adds no
    frame and adds one to the count of failed tickers; the loop goes on with
    the next ticker. *)
Theorem empty_result_list_counts_failed delay rand n st i ticker rest
    status_code kv chart :
  200 <= status_code < 300 ->
  http (requests st) ticker = Response status_code (Some (JObj kv)) ->
  assoc "esgChart" kv = Some (JObj chart) ->
  assoc "result" chart = Some (JArr []) ->
  let st' := iteration to_datetime_other http delay rand n st (i, ticker) in
  locate (JObj kv) = Raise IndexError /\
  st' = fail_with (ProcessingError ticker IndexError)
          (arrive delay rand n st i ticker) /\
  counted_failed st st' /\
  loop to_datetime_other http delay rand n ((i, ticker) :: rest) st
    = loop to_datetime_other http delay rand n rest st'.
Proof.
  intros S H C R. cbv zeta.
  assert (L : locate (JObj kv) = Raise IndexError).
  { unfold locate. simpl. rewrite C. simpl. rewrite R. reflexivity. }
  assert (X : extract to_datetime_other ticker (JObj kv) = Raise IndexError).
  { unfold extract. now rewrite L. }
  pose proof (iteration_raise delay rand n st i ticker status_code _ _ S H X) as E.
  split; [exact L|]. split; [exact E|].
  split; [rewrite E; apply fail_with_counted | reflexivity].
Qed.

End Claims_on_the_loop.

(** ** Records that lack a score *)

Lemma column_names_from_records rs :
  column_names (from_records rs) = union_labels [] (flat_map keys rs).
Proof.
  unfold column_names, from_records. simpl. rewrite map_map. simpl. apply map_id.
Qed.

(** The labels of the frame of a list of records are keys of the records. *)
Lemma records_labels rs df0 x :
  forallb is_dict rs = true ->
  pd_DataFrame (JArr rs) = Ok df0 ->
  In x (column_names df0) -> exists r, In r rs /\ In x (keys r).
Proof.
  intros D P Hx. destruct rs as [|v rest].
  - simpl in P. inversion P. subst df0. destruct Hx.
  - simpl in D. apply andb_prop in D. destruct D as [Dv Dr].
    destruct v; try discriminate. simpl in P. rewrite Dr in P.
    inversion P. subst df0. rewrite column_names_from_records in Hx.
    apply In_union_labels in Hx. destruct Hx as [[]|Hx].
    apply in_flat_map in Hx. exact Hx.
Qed.

Lemma score_is_kept score : In score score_fields -> In score columns_to_keep.
Proof. simpl. intuition. Qed.

Lemma score_is_not_added score :
  In score score_fields -> score <> "timestamp" /\ score <> "ticker".
Proof. simpl. intros [<-|[<-|[<-|[<-|[]]]]]; split; discriminate. Qed.

Section Claims_on_scores.

Variable to_datetime_other : json -> option Cell.
Variable http : nat -> string -> response.

Lemma projection_misses_score ticker rs score df :
  forallb is_dict rs = true ->
  In score score_fields ->
  (forall r, In r rs -> ~ In score (keys r)) ->
  build to_datetime_other ticker (JArr rs) = Ok df ->
  exists missing,
    select df columns_to_keep = Raise (KeyError missing) /\ In score missing.
Proof.
  intros D Sc A B. apply build_Ok in B.
  destruct B as (df0 & seconds & stamps & P & _ & _ & ->).
  apply select_missing; [now apply score_is_kept|].
  unfold column_names, setcol, setcol_scalar. simpl.
  rewrite !names_replace_col.
  destruct (score_is_not_added score Sc) as [N1 N2].
  intros [E|[E|Hx]]; [contradiction | contradiction |].
  destruct (records_labels rs df0 score D P Hx) as (r & Hr & Hk).
  exact (A r Hr Hk).
Qed.

(** Every row of the table [fetch_historical_esg] returns has the four score
    columns. *)
Lemma fetched_rows_have_scores rand tickers delay r f :
  In r (to_records (fst (fetch_historical_esg to_datetime_other http
                           rand tickers delay))) ->
  In f score_fields -> exists c, assoc f r = Some c.
Proof.
  destruct (fetch_cases to_datetime_other http rand tickers delay)
    as [[_ E] | [_ (ts & tk & e & g & en & s & E & _)]]; rewrite E.
  - intros [].
  - intros Hr Hf. apply In_to_records in Hr. destruct Hr as (i & _ & ->).
    simpl in Hf. destruct Hf as [<-|[<-|[<-|[<-|[]]]]]; simpl; eauto.
Qed.

(** C9, as amended.  When a ticker gets a 2xx answer whose symbolSeries is a
    list of records and one of the four score fields is absent from every
    record, processing the answer raises an error that the generic handler
    catches: the pass adds no frame and counts the ticker as failed, and the
    loop goes on.  The error comes from the projection on the kept columns
    whenever the frame is built, that is whenever the records have
    timestamps that convert; otherwise it comes from the steps before the
    projection.  Consequently every row of a fetched table has the four
    score columns. *)
Theorem missing_score_counts_failed delay rand n st i ticker rest
    status_code data rs score :
  200 <= status_code < 300 ->
  http (requests st) ticker = Response status_code (Some data) ->
  symbol_series data = Some (JArr rs) ->
  forallb is_dict rs = true ->
  In score score_fields ->
  (forall r, In r rs -> ~ In score (keys r)) ->
  let st' := iteration to_datetime_other http delay rand n st (i, ticker) in
  (exists e,
     extract to_datetime_other ticker data = Raise e /\
     st' = fail_with (ProcessingError ticker e) (arrive delay rand n st i ticker)) /\
  (forall df,
     build to_datetime_other ticker (JArr rs) = Ok df ->
     exists missing,
       In score missing /\
       projection_raises to_datetime_other ticker (JArr rs) (KeyError missing) /\
       extract to_datetime_other ticker data = Raise (KeyError missing)) /\
  counted_failed st st' /\
  loop to_datetime_other http delay rand n ((i, ticker) :: rest) st
    = loop to_datetime_other http delay rand n rest st' /\
  (forall rand' tickers delay' r f,
     In r (to_records (fst (fetch_historical_esg to_datetime_other http
                              rand' tickers delay'))) ->
     In f score_fields -> exists c, assoc f r = Some c).
Proof.
  intros S H Sy D Sc A. cbv zeta.
  assert (X : exists e, extract to_datetime_other ticker data = Raise e).
  { unfold extract. rewrite (locate_symbol_series _ _ Sy). cbn [bind].
    destruct (build to_datetime_other ticker (JArr rs)) as [df|e] eqn:Bd.
    - destruct (projection_misses_score ticker rs score df D Sc A Bd)
        as (missing & Sm & _).
      cbn [bind]. rewrite Sm. cbn [bind]. eauto.
    - cbn [bind]. eauto. }
  destruct X as (e & X).
  pose proof (iteration_raise to_datetime_other http delay rand n st i ticker
                status_code data e S H X) as E.
  split; [eauto|].
  split.
  { intros df Bd.
    destruct (projection_misses_score ticker rs score df D Sc A Bd)
      as (missing & Sm & Hm).
    exists missing. split; [exact Hm|]. split; [now exists df|].
    unfold extract. rewrite (locate_symbol_series _ _ Sy). cbn [bind].
    rewrite Bd. cbn [bind]. now rewrite Sm. }
  split; [rewrite E; apply fail_with_counted|].
  split; [reflexivity | apply fetched_rows_have_scores].
Qed.

End Claims_on_scores.

(** ** Two runs *)

Section Claims_on_two_runs.

Variable to_datetime_other : json -> option Cell.
Variable http : nat -> string -> response.

Lemma iteration_same_data delay rand1 rand2 n st1 st2 it :
  same_data st1 st2 ->
  same_data (iteration to_datetime_other http delay rand1 n st1 it)
            (iteration to_datetime_other http delay rand2 n st2 it).
Proof.
  intros (A & S & F & R). destruct it as [i ticker].
  rewrite !iteration_unfold. cbv zeta. rewrite R.
  destruct (http (requests st2) ticker) as [e|status_code [data|]].
  - unfold on_exception. destruct (is_RequestException e);
      repeat split; cbn; congruence.
  - destruct (ok status_code).
    + destruct (extract to_datetime_other ticker data) as [[df|]|e];
        [| |unfold on_exception;
            destruct (is_JSONDecodeError e), (is_RequestException e)];
        repeat split; cbn; congruence.
    + destruct (status_code =? 429); repeat split; cbn; congruence.
  - destruct (ok status_code); [|destruct (status_code =? 429)];
      repeat split; cbn; congruence.
Qed.

Lemma loop_same_data delay rand1 rand2 n its st1 st2 :
  same_data st1 st2 ->
  same_data (loop to_datetime_other http delay rand1 n its st1)
            (loop to_datetime_other http delay rand2 n its st2).
Proof.
  unfold loop. revert st1 st2.
  induction its as [|it rest IH]; intros st1 st2 H; cbn [fold_left]; [exact H|].
  apply IH. now apply iteration_same_data.
Qed.

(** The table returned does not depend on the random draws. *)
Lemma fetch_same_table rand1 rand2 tickers delay :
  fst (fetch_historical_esg to_datetime_other http rand1 tickers delay) =
  fst (fetch_historical_esg to_datetime_other http rand2 tickers delay).
Proof.
  unfold fetch_historical_esg.
  destruct (loop_same_data delay rand1 rand2 (List.length tickers)
              (enumerate tickers) (initial (List.length tickers))
              (initial (List.length tickers))) as (A & _);
    [repeat split|].
  cbn [emit all_data]. rewrite A.
  destruct (all_data (loop to_datetime_other http delay rand2 _ _ _));
    reflexivity.
Qed.

(** C6.  Two runs on the same ticker list against an endpoint that answers
    the same way, with different random draws and different processing
    dates, fetch the same table, and their formatted tables are equal once
    the column last_processing_date is left out. *)
Theorem runs_agree_up_to_processing_date rand1 rand2 today1 today2 tickers delay :
  fst (fetch_historical_esg to_datetime_other http rand1 tickers delay) =
  fst (fetch_historical_esg to_datetime_other http rand2 tickers delay) /\
  exists out1 out2,
    pipeline to_datetime_other http rand1 today1 tickers delay = Ok out1 /\
    pipeline to_datetime_other http rand2 today2 tickers delay = Ok out2 /\
    without "last_processing_date" out1 = without "last_processing_date" out2.
Proof.
  split; [apply fetch_same_table|].
  unfold pipeline. rewrite <- (fetch_same_table rand1 rand2).
  destruct (fetch_cases to_datetime_other http rand1 tickers delay)
    as [[_ E] | [_ (ts & tk & e & g & en & s & E & _)]]; rewrite E.
  - do 2 eexists. repeat split.
  - rewrite !format_raw_table. do 2 eexists.
    split; [reflexivity|]. split; [reflexivity|].
    destruct tk; reflexivity.
Qed.

End Claims_on_two_runs.

(** ** The example of the specification *)

Section Claim_on_the_example.

Variable to_datetime_other : json -> option Cell.
Variable http : nat -> string -> response.

(** C3.  For the single ticker AAA and a 2xx answer whose body is the
    example document, the fetched and formatted table has exactly one row:
    ticker AAA, timestamp 2021-01-01T00:00:00, total_score 45,
    governance_score 40, environment_score 50, social_score 46 (and the
    processing date). *)
Theorem example_AAA rand today delay status_code :
  200 <= status_code < 300 ->
  http 0%nat "AAA" = Response status_code (Some (answer aaa_series)) ->
  exists out,
    pipeline to_datetime_other http rand today ["AAA"] delay = Ok out /\
    to_records out = [aaa_row today] /\
    isoformat (mkTimestamp 2021 1 1 0 0 0) = "2021-01-01T00:00:00".
Proof.
  intros S H. unfold pipeline, fetch_historical_esg, loop, enumerate.
  cbn [List.length seq combine fold_left].
  rewrite iteration_unfold. cbv zeta.
  change (requests (initial 1)) with 0%nat. rewrite H, (ok_2xx _ S).
  eexists. split; [reflexivity|]. split; reflexivity.
Qed.

End Claim_on_the_example.

(** ** The statements at sample inputs *)

Lemma fallback_has_formatted_columns_witness :
  let run := fetch_historical_esg no_conversion not_found no_jitter ["AAA"] 2 in
  successful_tickers (snd run) = 0%nat /\
  fst run = empty_frame fallback_columns /\
  empty (fst run) = true /\
  to_records (fst run) = [] /\
  column_names (fst run) = formatted_columns /\
  format_esg_data "2026-11-04" (fst run) = Ok (fst run).
Proof.
  cbv zeta. split; [reflexivity|].
  apply (fallback_has_formatted_columns no_conversion not_found no_jitter
           ["AAA"] 2 "2026-11-04").
  reflexivity.
Defined.

(** The fallback table of a run in which no ticker succeeds has the column
    set of a formatted table: the two sets do not differ. *)
Lemma fallback_columns_not_different :
  let run := fetch_historical_esg no_conversion not_found no_jitter ["AAA"] 2 in
  successful_tickers (snd run) = 0%nat /\
  ~ differs_from formatted_columns (fst run).
Proof.
  cbv zeta. split; [reflexivity|].
  intros (c & [[H N] | [H N]]); apply N; exact H.
Qed.

Lemma format_keeps_present_scores_witness :
  let raw := fst (fetch_historical_esg no_conversion (serving (answer aaa_series))
                    no_jitter ["AAA"] 2) in
  empty raw = false /\
  exists out,
    format_esg_data "2026-11-04" raw = Ok out /\
    column_names out =
      ["ticker"; "timestamp"; "last_processing_date"] ++
      filter (fun col => mem col (column_names (rename column_mapping raw)))
             ["total_score"; "environment_score"; "social_score"; "governance_score"].
Proof.
  cbv zeta. split; [reflexivity|].
  apply (format_keeps_present_scores no_conversion (serving (answer aaa_series))
           no_jitter ["AAA"] 2 "2026-11-04").
  reflexivity.
Defined.

Lemma example_AAA_witness :
  exists out,
    pipeline no_conversion (serving (answer aaa_series)) no_jitter "2026-11-04"
      ["AAA"] 2 = Ok out /\
    to_records out = [aaa_row "2026-11-04"] /\
    isoformat (mkTimestamp 2021 1 1 0 0 0) = "2021-01-01T00:00:00".
Proof.
  apply (example_AAA no_conversion (serving (answer aaa_series)) no_jitter
           "2026-11-04" 2 200); [lia | reflexivity].
Defined.

Lemma rate_limited_ticker_is_dropped_witness :
  let st := initial 1 in
  let st' := iteration no_conversion rate_limiting 2 no_jitter 1 st (1%nat, "AAA") in
  log st' = log st ++ [Print (Processing 1 1 "AAA");
                       Sleep (2 + no_jitter (draws st));
                       Get "AAA";
                       Print (RateLimited "AAA");
                       Sleep 10] /\
  all_data st' = all_data st /\
  successful_tickers st' = successful_tickers st /\
  failed_tickers st' = failed_tickers st /\
  requests st' = S (requests st) /\
  loop no_conversion rate_limiting 2 no_jitter 1 [(1%nat, "AAA")] st
    = loop no_conversion rate_limiting 2 no_jitter 1 [] st' /\
  forall rand' tickers delay',
    requested (log (snd (fetch_historical_esg no_conversion rate_limiting
                           rand' tickers delay'))) = tickers.
Proof.
  cbv zeta.
  apply (rate_limited_ticker_is_dropped no_conversion rate_limiting 2 no_jitter 1
           (initial 1) 1 "AAA" [] None).
  reflexivity.
Defined.

Lemma missing_result_path_counts_failed_witness :
  let st := initial 1 in
  let st' := iteration no_conversion (serving chart_without_result) 2 no_jitter 1
               st (1%nat, "AAA") in
  has_result_path chart_without_result = false /\
  counted_failed st st' /\
  loop no_conversion (serving chart_without_result) 2 no_jitter 1 [(1%nat, "AAA")] st
    = loop no_conversion (serving chart_without_result) 2 no_jitter 1 [] st'.
Proof.
  cbv zeta. split; [reflexivity|].
  apply (missing_result_path_counts_failed no_conversion
           (serving chart_without_result) 2 no_jitter 1 (initial 1) 1 "AAA" []
           200 chart_without_result); [lia | reflexivity | reflexivity].
Defined.

Lemma empty_result_list_counts_failed_witness :
  let data := [("esgChart", JObj empty_result)] in
  let st := initial 1 in
  let st' := iteration no_conversion (serving (JObj data)) 2 no_jitter 1
               st (1%nat, "AAA") in
  locate (JObj data) = Raise IndexError /\
  st' = fail_with (ProcessingError "AAA" IndexError)
          (arrive 2 no_jitter 1 st 1 "AAA") /\
  counted_failed st st' /\
  loop no_conversion (serving (JObj data)) 2 no_jitter 1 [(1%nat, "AAA")] st
    = loop no_conversion (serving (JObj data)) 2 no_jitter 1 [] st'.
Proof.
  cbv zeta.
  apply (empty_result_list_counts_failed no_conversion
           (serving (JObj [("esgChart", JObj empty_result)])) 2 no_jitter 1
           (initial 1) 1 "AAA" [] 200 [("esgChart", JObj empty_result)]
           empty_result); [lia | reflexivity | reflexivity | reflexivity].
Defined.

Lemma missing_score_counts_failed_witness :
  let st := initial 1 in
  let st' := iteration no_conversion (serving (answer partial_series)) 2 no_jitter 1
               st (1%nat, "AAA") in
  (exists e,
     extract no_conversion "AAA" (answer partial_series) = Raise e /\
     st' = fail_with (ProcessingError "AAA" e) (arrive 2 no_jitter 1 st 1 "AAA")) /\
  (forall df,
     build no_conversion "AAA" (JArr (records_of partial_series)) = Ok df ->
     exists missing,
       In "socialScore" missing /\
       projection_raises no_conversion "AAA" (JArr (records_of partial_series))
         (KeyError missing) /\
       extract no_conversion "AAA" (answer partial_series) = Raise (KeyError missing)) /\
  counted_failed st st'.
Proof.
  cbv zeta.
  destruct (missing_score_counts_failed no_conversion
              (serving (answer partial_series)) 2 no_jitter 1 (initial 1) 1 "AAA" []
              200 (answer partial_series) (records_of partial_series) "socialScore")
    as (X & B & C & _).
  - lia.
  - reflexivity.
  - reflexivity.
  - reflexivity.
  - simpl. auto 10.
  - intros r [<-|[]]. simpl. intros [E|[E|[E|[E|[]]]]]; discriminate E.
  - split; [exact X|]. split; [exact B | exact C].
Defined.

(** Records that lack a score and have no timestamp: the frame is never
    built, because reading the timestamp column raises first; the projection
    is not reached, and the handler reports the missing timestamp. *)
Lemma projection_not_reached_without_timestamp :
  symbol_series (answer untimed_series) = Some untimed_series /\
  forallb is_dict (records_of untimed_series) = true /\
  (forall r, In r (records_of untimed_series) -> ~ In "socialScore" (keys r)) /\
  ~ (exists e, projection_raises no_conversion "AAA" untimed_series e) /\
  iteration no_conversion (serving (answer untimed_series)) 2 no_jitter 1
    (initial 1) (1%nat, "AAA")
  = fail_with (ProcessingError "AAA" (KeyError ["timestamp"]))
      (arrive 2 no_jitter 1 (initial 1) 1 "AAA").
Proof.
  split; [reflexivity|]. split; [reflexivity|]. split; [|split].
  - intros r [<-|[]]. simpl. intros [E|[E|[E|[]]]]; discriminate E.
  - intros (e & df & B & _). discriminate B.
  - reflexivity.
Qed.

(** * Further properties of the code *)

(** ** Outcomes, counters and the log *)

Lemma rate_limit_lines_app l1 l2 :
  rate_limit_lines (l1 ++ l2) = (rate_limit_lines l1 + rate_limit_lines l2)%nat.
Proof. unfold rate_limit_lines. now rewrite filter_app, length_app. Qed.

Lemma slept_app l1 l2 : (slept (l1 ++ l2) == slept l1 + slept l2)%Q.
Proof.
  induction l1 as [|ev rest IH]; simpl.
  - now rewrite Qplus_0_l.
  - destruct ev; try exact IH. rewrite IH. apply Qplus_assoc.
Qed.

Lemma outcomes_cons to_datetime_other http first t rest :
  outcomes to_datetime_other http first (t :: rest) =
  outcome_of to_datetime_other (http first t) t
  :: outcomes to_datetime_other http (S first) rest.
Proof. reflexivity. Qed.

Lemma outcomes_length to_datetime_other http first tickers :
  List.length (outcomes to_datetime_other http first tickers) = List.length tickers.
Proof.
  unfold outcomes. rewrite length_map, length_combine, length_seq. apply Nat.min_id.
Qed.

(** Every pass ends in exactly one of the three ways. *)
Lemma outcome_counts_once (os : list outcome) :
  (List.length (flat_map frames_of os) + list_sum (map failures_of os)
   + list_sum (map skips_of os) = List.length os)%nat.
Proof.
  induction os as [|o rest IH]; [reflexivity|].
  simpl. rewrite length_app. destruct o; simpl; lia.
Qed.

Section Outcomes.

Variable to_datetime_other : json -> option Cell.
Variable http : nat -> string -> response.

(** What one pass does to the variables of the function, by its outcome. *)
Lemma iteration_outcome delay rand n st i ticker :
  let o := outcome_of to_datetime_other (http (requests st) ticker) ticker in
  let st' := iteration to_datetime_other http delay rand n st (i, ticker) in
  all_data st' = all_data st ++ frames_of o /\
  successful_tickers st' = (successful_tickers st + List.length (frames_of o))%nat /\
  failed_tickers st' = (failed_tickers st + failures_of o)%nat /\
  rate_limit_lines (log st') = (rate_limit_lines (log st) + skips_of o)%nat /\
  requests st' = S (requests st) /\
  draws st' = S (draws st).
Proof.
  cbv zeta. rewrite iteration_unfold. cbv zeta. unfold outcome_of.
  assert (T : forall m l, match m with RateLimited _ => False | _ => True end ->
                rate_limit_lines (l ++ [Print m]) = rate_limit_lines l).
  { intros m l Hm. rewrite rate_limit_lines_app. destruct m; try contradiction;
      cbn; lia. }
  assert (P : rate_limit_lines (log (arrive delay rand n st i ticker))
              = rate_limit_lines (log st)).
  { cbn [arrive log]. rewrite rate_limit_lines_app. cbn. lia. }
  destruct (http (requests st) ticker) as [e|status_code [data|]].
  - unfold on_exception, fail_with, emit. destruct (is_RequestException e);
      cbn [log all_data successful_tickers failed_tickers requests draws
           frames_of failures_of skips_of List.length];
      rewrite T, P, ?app_nil_r by exact I; cbn [arrive all_data successful_tickers failed_tickers requests draws]; repeat split; lia.
  - destruct (ok status_code).
    + unfold on_exception, fail_with, succeed_with, emit.
      destruct (extract to_datetime_other ticker data) as [[df|]|e];
        [| |destruct (is_JSONDecodeError e), (is_RequestException e)];
        cbn [log all_data successful_tickers failed_tickers requests draws
             frames_of failures_of skips_of List.length];
        rewrite T, P, ?app_nil_r by exact I; cbn [arrive all_data successful_tickers failed_tickers requests draws]; repeat split; lia.
    + unfold fail_with, emit. destruct (status_code =? 429);
        cbn [log all_data successful_tickers failed_tickers requests draws
             frames_of failures_of skips_of List.length].
      * rewrite !rate_limit_lines_app, P, app_nil_r. cbn. cbn [arrive all_data successful_tickers failed_tickers requests draws]; repeat split; lia.
      * rewrite T, P, ?app_nil_r by exact I. cbn [arrive all_data successful_tickers failed_tickers requests draws]; repeat split; lia.
  - unfold fail_with, emit.
    destruct (ok status_code); [|destruct (status_code =? 429)];
      cbn [log all_data successful_tickers failed_tickers requests draws
           frames_of failures_of skips_of List.length].
    + rewrite T, P, ?app_nil_r by exact I. cbn [arrive all_data successful_tickers failed_tickers requests draws]; repeat split; lia.
    + rewrite !rate_limit_lines_app, P, app_nil_r. cbn. cbn [arrive all_data successful_tickers failed_tickers requests draws]; repeat split; lia.
    + rewrite T, P, ?app_nil_r by exact I. cbn [arrive all_data successful_tickers failed_tickers requests draws]; repeat split; lia.
Qed.

Lemma loop_outcomes delay rand n its st :
  let os := outcomes to_datetime_other http (requests st) (map snd its) in
  let st' := loop to_datetime_other http delay rand n its st in
  all_data st' = all_data st ++ flat_map frames_of os /\
  successful_tickers st' =
    (successful_tickers st + List.length (flat_map frames_of os))%nat /\
  failed_tickers st' = (failed_tickers st + list_sum (map failures_of os))%nat /\
  rate_limit_lines (log st') =
    (rate_limit_lines (log st) + list_sum (map skips_of os))%nat /\
  requests st' = (requests st + List.length its)%nat /\
  draws st' = (draws st + List.length its)%nat.
Proof.
  cbv zeta. unfold loop. revert st.
  induction its as [|[i t] rest IH]; intros st; cbn [fold_left map snd List.length].
  - cbn. rewrite app_nil_r. repeat split; lia.
  - destruct (iteration_outcome delay rand n st i t) as (A & S & F & R & Q & D).
    destruct (IH (iteration to_datetime_other http delay rand n st (i, t)))
      as (A' & S' & F' & R' & Q' & D').
    rewrite Q in A', S', F', R'. unfold list_sum in *.
    rewrite outcomes_cons. cbn [flat_map map fold_right].
    rewrite A', S', F', R', Q', D', A, S, F, R, Q, D, length_app, <- app_assoc.
    repeat split; lia.
Qed.

End Outcomes.

Lemma outcomes_app to_datetime_other http first l1 l2 :
  outcomes to_datetime_other http first (l1 ++ l2) =
  outcomes to_datetime_other http first l1 ++
  outcomes to_datetime_other http (first + List.length l1) l2.
Proof.
  revert first. induction l1 as [|t rest IH]; intros first.
  - simpl. now rewrite Nat.add_0_r.
  - cbn [app List.length]. rewrite !outcomes_cons, IH. cbn [app].
    now rewrite Nat.add_succ_r.
Qed.

Lemma outcomes_shift to_datetime_other http m first tickers :
  outcomes to_datetime_other (fun k => http (m + k)%nat) first tickers =
  outcomes to_datetime_other http (m + first) tickers.
Proof.
  revert first. induction tickers as [|t rest IH]; intros first; [reflexivity|].
  rewrite !outcomes_cons, IH. now rewrite Nat.add_succ_r.
Qed.

Section Runs.

Variable to_datetime_other : json -> option Cell.
Variable http : nat -> string -> response.

(** The final state of [fetch_historical_esg] in terms of the outcomes of
    its tickers. *)
Lemma fetch_outcomes rand tickers delay :
  let os := outcomes to_datetime_other http 0 tickers in
  let st := snd (fetch_historical_esg to_datetime_other http rand tickers delay) in
  all_data st = flat_map frames_of os /\
  successful_tickers st = List.length (flat_map frames_of os) /\
  failed_tickers st = list_sum (map failures_of os) /\
  rate_limit_lines (log st) = list_sum (map skips_of os) /\
  requests st = List.length tickers /\
  draws st = List.length tickers.
Proof.
  cbv zeta. unfold fetch_historical_esg.
  destruct (loop_outcomes to_datetime_other http delay rand (List.length tickers)
              (enumerate tickers) (initial (List.length tickers)))
    as (A & S & F & R & Q & D).
  rewrite map_snd_enumerate in A, S, F, R.
  assert (L : List.length (enumerate tickers) = List.length tickers).
  { unfold enumerate. rewrite length_combine, length_seq. apply Nat.min_id. }
  rewrite L in Q, D. cbn [initial all_data successful_tickers failed_tickers
                          requests draws log app] in A, S, F, R, Q, D.
  set (st := loop _ _ _ _ _ _ _) in *.
  cbn [emit all_data].
  destruct (all_data st) eqn:E;
    cbn [snd emit all_data successful_tickers failed_tickers requests draws log];
    rewrite ?E, !rate_limit_lines_app, R; cbn; repeat split; assumption || lia.
Qed.

(** X1.  When [fetch_historical_esg] returns, every ticker of the list has
    been counted once: as a success, as a failure, or by a rate-limit line
    in the log. *)
Theorem every_ticker_is_accounted_for rand tickers delay :
  let st := snd (fetch_historical_esg to_datetime_other http rand tickers delay) in
  (successful_tickers st + failed_tickers st + rate_limit_lines (log st)
   = List.length tickers)%nat.
Proof.
  cbv zeta.
  destruct (fetch_outcomes rand tickers delay) as (_ & S & F & R & _).
  rewrite S, F, R, outcome_counts_once. apply outcomes_length.
Qed.

(** X2.  The table returned is made of the frames of the tickers whose
    answers are usable, in the order of the list, and the frame of a ticker
    depends on the answer to its own request only: the [k]-th ticker is
    judged on the answer to the [k]-th request.  With no usable answer the
    table is the fallback. *)
Theorem table_is_built_from_usable_answers rand tickers delay :
  let run := fetch_historical_esg to_datetime_other http rand tickers delay in
  let frames := flat_map frames_of (outcomes to_datetime_other http 0 tickers) in
  all_data (snd run) = frames /\
  fst run = match frames with
            | [] => empty_frame fallback_columns
            | _ :: _ => concat frames
            end.
Proof.
  cbv zeta.
  destruct (fetch_outcomes rand tickers delay) as (A & _).
  split; [exact A|]. rewrite <- A. unfold fetch_historical_esg.
  set (st := loop _ _ _ _ _ _ _). cbn [emit all_data].
  destruct (all_data st) eqn:E; cbn [fst snd emit all_data]; now rewrite E.
Qed.

End Runs.

(** X3.  Fetching a list made of two parts collects what fetching the first
    part collects, followed by what fetching the second part collects from
    an endpoint that has already served the first part; failures in one part
    leave the frames of the other untouched. *)
Theorem fetch_of_two_parts to_datetime_other http rand rand1 rand2
    delay delay1 delay2 (part1 part2 : list string) :
  all_data (snd (fetch_historical_esg to_datetime_other http rand
                   (part1 ++ part2) delay)) =
  all_data (snd (fetch_historical_esg to_datetime_other http rand1 part1 delay1))
  ++ all_data (snd (fetch_historical_esg to_datetime_other
                      (fun k => http (List.length part1 + k)%nat)
                      rand2 part2 delay2)).
Proof.
  destruct (fetch_outcomes to_datetime_other http rand (part1 ++ part2) delay)
    as (A & _).
  destruct (fetch_outcomes to_datetime_other http rand1 part1 delay1) as (A1 & _).
  destruct (fetch_outcomes to_datetime_other
              (fun k => http (List.length part1 + k)%nat) rand2 part2 delay2)
    as (A2 & _).
  rewrite A, A1, A2, outcomes_app, outcomes_shift, flat_map_app.
  now rewrite Nat.add_0_r.
Qed.

(** ** The time slept *)

Lemma Qnat_succ n : (Qnat (S n) == Qnat n + 1)%Q.
Proof.
  unfold Qnat. rewrite Nat2Z.inj_succ, <- Z.add_1_r, inject_Z_plus. reflexivity.
Qed.

Lemma Qnat_add n m : (Qnat (n + m) == Qnat n + Qnat m)%Q.
Proof. unfold Qnat. now rewrite Nat2Z.inj_add, inject_Z_plus. Qed.

Section Sleeping.

Variable to_datetime_other : json -> option Cell.
Variable http : nat -> string -> response.

Lemma iteration_slept delay rand n st i ticker :
  let o := outcome_of to_datetime_other (http (requests st) ticker) ticker in
  (slept (log (iteration to_datetime_other http delay rand n st (i, ticker)))
   == slept (log st) + (delay + rand (draws st)) + 10 * Qnat (skips_of o))%Q.
Proof.
  cbv zeta. rewrite iteration_unfold. cbv zeta. unfold outcome_of.
  assert (P : (slept (log (arrive delay rand n st i ticker))
               == slept (log st) + (delay + rand (draws st)))%Q).
  { cbn [arrive log]. rewrite slept_app. cbn. ring. }
  assert (T : forall m l, (slept (l ++ [Print m]) == slept l)%Q).
  { intros m l. rewrite slept_app. cbn. ring. }
  destruct (http (requests st) ticker) as [e|status_code [data|]].
  - unfold on_exception, fail_with, emit. destruct (is_RequestException e);
      cbn [log skips_of]; rewrite T, P; unfold Qnat; cbn; ring.
  - destruct (ok status_code).
    + unfold on_exception, fail_with, succeed_with, emit.
      destruct (extract to_datetime_other ticker data) as [[df|]|e];
        [| |destruct (is_JSONDecodeError e), (is_RequestException e)];
        cbn [log skips_of]; rewrite T, P; unfold Qnat; cbn; ring.
    + unfold fail_with, emit. destruct (status_code =? 429); cbn [log skips_of].
      * rewrite slept_app, T, P. unfold Qnat. cbn. ring.
      * rewrite T, P. unfold Qnat. cbn. ring.
  - unfold fail_with, emit.
    destruct (ok status_code); [|destruct (status_code =? 429)];
      cbn [log skips_of].
    + rewrite T, P. unfold Qnat. cbn. ring.
    + rewrite slept_app, T, P. unfold Qnat. cbn. ring.
    + rewrite T, P. unfold Qnat. cbn. ring.
Qed.

Lemma loop_slept delay rand n its st :
  (slept (log (loop to_datetime_other http delay rand n its st))
   == slept (log st) + pauses delay rand (draws st) (List.length its)
      + 10 * Qnat (list_sum (map skips_of
                     (outcomes to_datetime_other http (requests st) (map snd its)))))%Q.
Proof.
  unfold loop. revert st.
  induction its as [|[i t] rest IH]; intros st; cbn [fold_left map snd List.length pauses].
  - unfold Qnat. cbn. ring.
  - rewrite IH, iteration_slept.
    destruct (iteration_outcome to_datetime_other http delay rand n st i t)
      as (_ & _ & _ & _ & Q & D).
    rewrite Q, D, outcomes_cons. cbn [map].
    change (list_sum (?a :: ?l)) with (a + list_sum l)%nat.
    rewrite Qnat_add. ring.
Qed.

(** X4.  The time a run sleeps is the pacing delay plus one random draw for
    each ticker of the list, and 10 seconds more for each rate-limit line in
    the log. *)
Theorem time_slept_by_a_run rand tickers delay :
  let st := snd (fetch_historical_esg to_datetime_other http rand tickers delay) in
  (slept (log st) == pauses delay rand 0 (List.length tickers)
                     + 10 * Qnat (rate_limit_lines (log st)))%Q.
Proof.
  cbv zeta.
  destruct (fetch_outcomes to_datetime_other http rand tickers delay)
    as (_ & _ & _ & R & _).
  rewrite R. unfold fetch_historical_esg.
  pose proof (loop_slept delay rand (List.length tickers) (enumerate tickers)
                (initial (List.length tickers))) as L.
  rewrite map_snd_enumerate in L.
  assert (E : List.length (enumerate tickers) = List.length tickers).
  { unfold enumerate. rewrite length_combine, length_seq. apply Nat.min_id. }
  rewrite E in L. cbn [initial log draws requests] in L.
  set (st := loop _ _ _ _ _ _ _) in *. cbn [emit all_data].
  destruct (all_data st); cbn [snd emit log];
    rewrite !slept_app, L; cbn; ring.
Qed.

End Sleeping.

(** ** Records that give a frame *)

Lemma assoc_labelled {A} (f : string -> A) (names : list string) (c : string) :
  In c names -> assoc c (map (fun c => (c, f c)) names) = Some (f c).
Proof.
  induction names as [|x rest IH]; simpl; [intros []|].
  destruct (String.eqb_spec c x) as [->|N]; [reflexivity|].
  intros [E|H]; [congruence | now apply IH].
Qed.



Section Records.

Variable to_datetime_other : json -> option Cell.
Variable http : nat -> string -> response.






End Records.

(** ** Formatting any table *)

Lemma rename_names df :
  column_names (rename column_mapping df) = map renamed (column_names df).
Proof.
  unfold column_names, rename. cbn [columns]. rewrite !map_map.
  apply map_ext. now intros [c d].
Qed.



Lemma select_Ok_present df names out c :
  select df names = Ok out -> In c names -> In c (column_names df).
Proof.
  unfold select. intros S Hc.
  destruct (filter (fun c => negb (mem c (column_names df))) names) eqn:F;
    [|discriminate].
  destruct (mem c (column_names df)) eqn:M; [now apply mem_In|].
  assert (In c (filter (fun c => negb (mem c (column_names df))) names)).
  { apply filter_In. split; [assumption | now rewrite M]. }
  rewrite F in H. destruct H.
Qed.



(** X8.  On a table that has a row but no ticker column, or no timestamp
    column, [format_esg_data] raises a [KeyError] that names the missing
    column. *)
Theorem format_needs_ticker_and_timestamp today df c :
  empty df = false ->
  In c ["ticker"; "timestamp"] ->
  ~ In c (column_names df) ->
  exists missing,
    format_esg_data today df = Raise (KeyError missing) /\ In c missing.
Proof.
  intros NE Hc A. unfold format_esg_data. rewrite NE.
  apply select_missing.
  - simpl in Hc. simpl. tauto.
  - unfold column_names at 1, setcol_scalar, setcol. cbn [columns].
    rewrite names_replace_col.
    change (map fst (columns (rename column_mapping df)))
      with (column_names (rename column_mapping df)).
    rewrite rename_names.
    intros [E|H].
    + simpl in Hc. subst c. intuition discriminate.
    + apply in_map_iff in H. destruct H as (c0 & E & H0).
      assert (c0 = c); [|subst c0; contradiction].
      unfold renamed in E. simpl in E.
      destruct (c0 =? "esgScore")%string;
        [subst c; simpl in Hc; intuition discriminate|].
      destruct (c0 =? "governanceScore")%string;
        [subst c; simpl in Hc; intuition discriminate|].
      destruct (c0 =? "environmentScore")%string;
        [subst c; simpl in Hc; intuition discriminate|].
      destruct (c0 =? "socialScore")%string;
        [subst c; simpl in Hc; intuition discriminate|].
      exact E.
Qed.

(** X10.  In the table [format_esg_data] returns for a table that has a
    row, last_processing_date holds the date on every row, and every other
    column holds the data the column of that label has after the
    renaming: nothing but the labels, the order and the date is changed. *)
Theorem format_keeps_the_data today df out :
  empty df = false ->
  format_esg_data today df = Ok out ->
  nrows out = nrows df /\
  getcol out "last_processing_date" = Ok (repeat (Val (JStr today)) (nrows df)) /\
  forall c, In c (column_names out) -> c <> "last_processing_date" ->
    getcol out c = getcol (rename column_mapping df) c.
Proof.
  intros NE. unfold format_esg_data. rewrite NE.
  set (df2 := setcol_scalar _ _ _). set (cols := _ ++ _). intros S.
  pose proof (fun c => select_Ok_present df2 cols out c S) as Pr.
  apply select_Ok in S. subst out. cbn [nrows].
  split; [reflexivity|].
  unfold getcol, column_names. cbn [columns]. rewrite names_of_labelled.
  split.
  - rewrite (assoc_labelled (fun c => match assoc c (columns df2) with
                                      | Some d => d | None => [] end))
      by (unfold cols; simpl; auto).
    unfold df2, setcol_scalar, setcol. cbn [columns nrows].
    now rewrite assoc_replace_same.
  - intros c Hc N.
    rewrite (assoc_labelled (fun c => match assoc c (columns df2) with
                                      | Some d => d | None => [] end)) by assumption.
    specialize (Pr c Hc).
    destruct (assoc c (columns df2)) as [d|] eqn:A;
      [|apply assoc_None in A; contradiction].
    unfold df2, setcol_scalar, setcol in A. cbn [columns] in A.
    rewrite assoc_replace_other in A by assumption. now rewrite A.
Qed.

(** X9.  Formatting is idempotent: formatting a formatted table again, on
    the same day, returns it unchanged. *)
Theorem format_twice today df out :
  format_esg_data today df = Ok out ->
  format_esg_data today out = Ok out.
Proof.
  destruct (empty df) eqn:NE.
  - unfold format_esg_data at 1. rewrite NE. injection 1 as <-.
    unfold format_esg_data. now rewrite NE.
  - unfold format_esg_data at 1. rewrite NE.
    set (df2 := setcol_scalar _ _ _). intros S. apply select_Ok in S.
    assert (L : assoc "last_processing_date" (columns df2)
                = Some (repeat (Val (JStr today)) (nrows df))).
    { unfold df2, setcol_scalar, setcol. cbn [columns nrows].
      apply assoc_replace_same. }
    change (nrows df2) with (nrows df) in S.
    cbn [map app] in S. rewrite L in S.
    assert (R : exists n, nrows df = Datatypes.S n).
    { unfold empty in NE. destruct (nrows df); [discriminate | eauto]. }
    destruct R as (n & R). rewrite R in S. subst out. cbn [filter].
    destruct (mem "total_score" (column_names df2)),
             (mem "environment_score" (column_names df2)),
             (mem "social_score" (column_names df2)),
             (mem "governance_score" (column_names df2)); reflexivity.
Qed.

(** ** The main block *)

Section Main.

Variable to_datetime_other : json -> option Cell.
Variable http : nat -> string -> response.

(** X11.  The main block asks the endpoint for every distinct symbol of the
    file exactly once: the requests are the symbols in the order of their
    first appearance, none of them twice, however often a symbol is
    repeated in the file. *)
Theorem main_requests_each_symbol_once rand today symbols :
  let asked := requested (log (snd (main to_datetime_other http rand today symbols))) in
  asked = unique symbols /\
  NoDup asked /\
  forall t, In t asked <-> In t symbols.
Proof.
  cbv zeta. unfold main. cbn [snd].
  rewrite (fetch_requested to_datetime_other http rand (unique symbols) 5).
  split; [reflexivity|]. split.
  - apply union_labels_NoDup. constructor.
  - intros t. unfold unique. rewrite In_union_labels. simpl. tauto.
Qed.

(** X12.  The column reads of the main block never raise: the report after
    the formatting reads the ticker and the timestamp columns, and both are
    there in every table the pipeline returns, the fallback of a run without
    any usable answer included; the table handed to the writer is the
    formatted table. *)
Theorem main_report_never_raises rand today symbols :
  exists out,
    fst (main to_datetime_other http rand today symbols) = Ok out /\
    pipeline to_datetime_other http rand today (unique symbols) 5 = Ok out.
Proof.
  unfold main. cbn [fst].
  destruct (pipeline_cases to_datetime_other http rand today (unique symbols) 5)
    as [(_ & _ & P) | [(ts & e & g & en & s & E & P)
                      | (ts & tk & e & g & en & s & _ & _ & _ & P)]];
    unfold pipeline in P |- *; rewrite P; [|rewrite E|];
    eexists; (split; reflexivity).
Qed.

End Main.

(** ** Timestamps *)

Lemma civil_round_trip days y m d :
  civil_from_days days = (y, m, d) ->
  days_from_civil y m d = days /\ 1 <= m <= 12 /\ 1 <= d <= 31.
Proof.
  unfold civil_from_days, days_from_civil. cbv zeta.
  set (z := days + 719468).
  set (era := z / 146097).
  set (doe := z - era * 146097).
  assert (Hdoe : 0 <= doe < 146097).
  { unfold doe, era. pose proof (Z.mod_pos_bound z 146097 ltac:(lia)) as B.
    rewrite Z.mod_eq in B by lia. lia. }
  assert (Hz : days = era * 146097 + doe - 719468) by (unfold doe, z; lia).
  clearbody doe era. clear z.
  set (yoe := (doe - doe / 1460 + doe / 36524 - doe / 146096) / 365).
  assert (Hyoe : 0 <= yoe <= 399) by (unfold yoe; Z.div_mod_to_equations; lia).
  set (doy := doe - (365 * yoe + yoe / 4 - yoe / 100)).
  assert (Hdoy : 0 <= doy <= 365)
    by (unfold doy, yoe; Z.div_mod_to_equations; lia).
  assert (Hdoe' : doe = yoe * 365 + yoe / 4 - yoe / 100 + doy)
    by (unfold doy; lia).
  clearbody doy yoe.
  set (mp := (5 * doy + 2) / 153).
  assert (Hmp : 0 <= mp <= 11) by (unfold mp; Z.div_mod_to_equations; lia).
  set (dd := doy - (153 * mp + 2) / 5 + 1).
  assert (Hd : 1 <= dd <= 31) by (unfold dd, mp; Z.div_mod_to_equations; lia).
  assert (Hdoy' : doy = (153 * mp + 2) / 5 + dd - 1) by (unfold dd; lia).
  clearbody dd mp.
  intros E. injection E as <- <- <-.
  destruct (mp <? 10) eqn:M; [apply Z.ltb_lt in M | apply Z.ltb_ge in M].
  - replace (mp + 3 <=? 2) with false by (symmetry; apply Z.leb_gt; lia).
    replace (yoe + era * 400 + 0) with (yoe + era * 400) by lia.
    replace (mp + 3 - 3) with mp by lia.
    replace ((yoe + era * 400) / 400) with era by (Z.div_mod_to_equations; lia).
    replace (yoe + era * 400 - era * 400) with yoe by lia.
    lia.
  - replace (mp - 9 <=? 2) with true by (symmetry; apply Z.leb_le; lia).
    replace (yoe + era * 400 + 1 - 1) with (yoe + era * 400) by lia.
    replace (mp - 9 + 9) with mp by lia.
    replace ((yoe + era * 400) / 400) with era by (Z.div_mod_to_equations; lia).
    replace (yoe + era * 400 - era * 400) with yoe by lia.
    lia.
Qed.

(** X13.  The conversion of line 60 loses nothing on integer seconds: the
    fields of the timestamp are those of a calendar date and of a time of
    day, and the seconds are recovered from them; two different numbers of
    seconds never give the same timestamp. *)
Theorem timestamp_round_trip (s : Z) :
  let t := Timestamp_of_epoch s in
  epoch_of_Timestamp t = s /\
  1 <= month t <= 12 /\ 1 <= day t <= 31 /\
  0 <= hour t <= 23 /\ 0 <= minute t <= 59 /\ 0 <= second t <= 59 /\
  forall s', Timestamp_of_epoch s' = t -> s' = s.
Proof.
  assert (R : forall s, epoch_of_Timestamp (Timestamp_of_epoch s) = s).
  { intros x. unfold epoch_of_Timestamp, Timestamp_of_epoch.
    destruct (civil_from_days (x / 86400)) as [[y m] d] eqn:C.
    apply civil_round_trip in C. destruct C as (C & _).
    cbn [year month day hour minute second]. rewrite C.
    Z.div_mod_to_equations; lia. }
  cbv zeta. split; [apply R|].
  assert (I : forall s', Timestamp_of_epoch s' = Timestamp_of_epoch s -> s' = s).
  { intros s' E. rewrite <- (R s'), E. apply R. }
  remember (Timestamp_of_epoch s) as t eqn:Et.
  unfold Timestamp_of_epoch in Et.
  destruct (civil_from_days (s / 86400)) as [[y m] d] eqn:C.
  apply civil_round_trip in C. destruct C as (_ & Hm & Hd).
  subst t. cbn [year month day hour minute second].
  split; [exact Hm|]. split; [exact Hd|].
  split; [Z.div_mod_to_equations; lia|].
  split; [Z.div_mod_to_equations; lia|].
  split; [Z.div_mod_to_equations; lia | exact I].
Qed.

(** ** Rows *)











Section Rows.

Variable to_datetime_other : json -> option Cell.
Variable http : nat -> string -> response.







End Rows.

(** ** The shape test *)

(** X15.  The series is reached exactly for answers of the expected shape:
    a dict whose esgChart is a dict whose result is a list that starts with
    a dict that has a symbolSeries.  The no-data branch is taken only for
    answers without the path esgChart.result; every other answer raises. *)
Theorem series_reached_for_expected_shape (data : json) :
  (forall series, locate data = Ok (Some series) <->
                  symbol_series data = Some series) /\
  (locate data = Ok None -> has_result_path data = false).
Proof.
  split.
  - intros series. split; [|apply locate_symbol_series].
    unfold locate, symbol_series.
    destruct data as [| | | |s|l|kv]; simpl; try discriminate.
    + destruct (str_contains "esgChart" s); discriminate.
    + destruct (existsb (eq_str "esgChart") l); discriminate.
    + destruct (assoc "esgChart" kv) as [chart|]; simpl; [|discriminate].
      destruct chart as [| | | |s|l|ch]; simpl; try discriminate.
      * destruct (str_contains "result" s); discriminate.
      * destruct (existsb (eq_str "result") l); discriminate.
      * destruct (assoc "result" ch) as [res|]; simpl; [|discriminate].
        destruct res as [| | | |s|[|first rest]|fields]; simpl; try discriminate.
        -- destruct s; discriminate.
        -- destruct first as [| | | | | |fields]; simpl; try discriminate.
           destruct (assoc "symbolSeries" fields); simpl; [|discriminate].
           intros E. now inversion E.
  - unfold locate, has_result_path.
    destruct data as [| | | |s|l|kv]; simpl; try reflexivity.
    destruct (assoc "esgChart" kv) as [chart|]; simpl; [|reflexivity].
    destruct chart as [| | | |s|l|ch]; simpl; try reflexivity.
    destruct (assoc "result" ch) as [res|]; simpl; [|reflexivity].
    destruct res as [| | | |s|[|first rest]|fields]; simpl; try discriminate.
    + destruct s; discriminate.
    + destruct first as [| | | | | |fields]; simpl; try discriminate.
      destruct (assoc "symbolSeries" fields); discriminate.
Qed.

(** ** The further statements at sample inputs *)




Lemma format_needs_ticker_and_timestamp_witness :
  exists missing,
    format_esg_data "2026-11-04" tickerless_table = Raise (KeyError missing) /\
    In "ticker" missing.
Proof.
  apply (format_needs_ticker_and_timestamp "2026-11-04" tickerless_table "ticker").
  - reflexivity.
  - simpl. tauto.
  - simpl. intros [E|[E|[]]]; discriminate E.
Defined.

Lemma format_twice_witness :
  format_esg_data "2026-11-04" two_score_formatted = Ok two_score_formatted.
Proof.
  apply (format_twice "2026-11-04" two_score_table two_score_formatted).
  reflexivity.
Defined.

Lemma format_keeps_the_data_witness :
  nrows two_score_formatted = nrows two_score_table /\
  getcol two_score_formatted "last_processing_date"
    = Ok (repeat (Val (JStr "2026-11-04")) (nrows two_score_table)) /\
  forall c, In c (column_names two_score_formatted) ->
    c <> "last_processing_date" ->
    getcol two_score_formatted c = getcol (rename column_mapping two_score_table) c.
Proof.
  apply (format_keeps_the_data "2026-11-04" two_score_table two_score_formatted);
    reflexivity.
Defined.

(** ** The columns of the table written *)

Section Written.

Variable to_datetime_other : json -> option Cell.
Variable http : nat -> string -> response.

(** X16.  The table the pipeline hands to the writer has the seven
    formatted columns, with one exception: when frames were collected but
    hold no row at all, the table is returned unformatted, with the six
    columns of the loop. *)
Theorem columns_of_the_written_table rand today tickers delay :
  exists out,
    pipeline to_datetime_other http rand today tickers delay = Ok out /\
    (column_names out = formatted_columns \/
     (to_records out = [] /\ column_names out = columns_to_keep)).
Proof.
  destruct (pipeline_cases to_datetime_other http rand today tickers delay)
    as [(_ & _ & P) | [(ts & e & g & en & s & E & P)
                      | (ts & tk & e & g & en & s & _ & _ & _ & P)]];
    rewrite P; eexists; (split; [reflexivity|]).
  - now left.
  - right. rewrite E. split; reflexivity.
  - now left.
Qed.

End Written.

(** The exception does occur: a series given as columns without values is
    collected, and the table is then written with the columns of the loop. *)
Lemma unformatted_table_example :
  pipeline no_conversion (serving (answer empty_columns)) no_jitter "2026-11-04"
    ["AAA"] 2
  = Ok (mkDataFrame 0 (map (fun c => (c, [])) columns_to_keep)).
Proof. reflexivity. Qed.
